(** * A shallow embedding of [src/rpc/BitcoinRPC.ts]

    The class [BitcoinRPC] is a facade over an external JSON-RPC transport
    ([RPCClient]).  Every method is embedded as a computation in a small
    monad that threads the state of the running program: the fields of the
    client object, the console written through the [Logger] base class, the
    list of requests handed to the transport, and the clock that drives the
    interval timer of the cache.

    Conventions.
    - JavaScript values are the inductive [Value]; numbers are integers (the
      client only ever tests a response for truthiness or nullishness, and a
      fractional number behaves there like any non-zero integer).
    - A method runs to completion without interleaving: the [await] points
      are sequenced, time passes between calls ([elapse]).
    - The transport is a function [node] from the requests made so far, the
      handle, the procedure name and its arguments to a [Response]. *)

From Stdlib Require Import ZArith String List Bool Lia DecimalString.
Import ListNotations.

Open Scope string_scope.
Open Scope Z_scope.

(** ** JavaScript values *)

Set Warnings "-register-all".

Inductive Value : Type :=
| VUndefined
| VNull
| VBool (b : bool)
| VNum (n : Z)
| VStr (s : string)
| VArr (items : list Value)
| VObj (fields : list (string * Value))
| VError (message : string).

Set Warnings "register-all".

(** [Boolean(v)]: the falsy values are undefined, null, false, 0 and ''. *)
Definition truthy (v : Value) : bool :=
  match v with
  | VUndefined | VNull => false
  | VBool b => b
  | VNum n => negb (n =? 0)
  | VStr s => negb (s =? "")%string
  | VArr _ | VObj _ | VError _ => true
  end.

Definition nullish (v : Value) : bool :=
  match v with
  | VUndefined | VNull => true
  | _ => false
  end.

(** [a || b] and [a ?? b]. *)
Definition js_or (a b : Value) : Value := if truthy a then a else b.
Definition js_coalesce (a b : Value) : Value := if nullish a then b else a.

Infix "|||" := js_or (at level 50, left associativity).
Infix "???" := js_coalesce (at level 50, left associativity).

Definition string_of_Z (n : Z) : string := NilZero.string_of_int (Z.to_int n).

(** [String(v)], the conversion a template literal applies to [${v}]. *)
Fixpoint to_string (v : Value) : string :=
  match v with
  | VUndefined => "undefined"
  | VNull => "null"
  | VBool true => "true"
  | VBool false => "false"
  | VNum n => string_of_Z n
  | VStr s => s
  | VArr items =>
      let element (x : Value) : string :=
        match x with
        | VUndefined | VNull => ""
        | _ => to_string x
        end in
      (fix join (l : list Value) : string :=
         match l with
         | [] => ""
         | x :: rest =>
             match rest with
             | [] => element x
             | _ :: _ => element x ++ "," ++ join rest
             end
         end) items
  | VObj _ => "[object Object]"
  | VError message =>
      if (message =? "")%string then "Error" else "Error: " ++ message
  end.

(** [v == ''] (abstract equality against the empty string). *)
Definition loose_eq_empty (v : Value) : bool :=
  match v with
  | VStr s => (s =? "")%string
  | VNum n => n =? 0
  | VBool b => negb b
  | VArr _ => (to_string v =? "")%string
  | _ => false
  end.

(** [v.name]: reading a property of undefined or null raises a TypeError. *)
Fixpoint lookup (name : string) (fields : list (string * Value)) : Value :=
  match fields with
  | [] => VUndefined
  | (k, x) :: rest => if (k =? name)%string then x else lookup name rest
  end.

Definition member (v : Value) (name : string) : Value + Value :=
  match v with
  | VUndefined | VNull =>
      inr (VError ("Cannot read properties of " ++ to_string v
                   ++ " (reading '" ++ name ++ "')"))
  | VObj fields => inl (lookup name fields)
  | VError message =>
      inl (if (name =? "message")%string then VStr message else VUndefined)
  | _ => inl VUndefined
  end.

(** Optional arguments: an omitted argument is [undefined]. *)
Definition opt {A : Type} (f : A -> Value) (o : option A) : Value :=
  match o with
  | Some a => f a
  | None => VUndefined
  end.

Definition strings (l : list string) : Value := VArr (map VStr l).

(** ** Types of the client *)

(** [types/BitcoinVerbosity]: the members of the enum this file names; their
    numeric codes are a parameter of the development ([verbosityCode]
    below). *)
Inductive BitcoinVerbosity : Type := RAW | NONE.

(** [verbose !== BitcoinVerbosity.RAW] for an optional [verbose]. *)
Definition not_RAW (verbose : option BitcoinVerbosity) : bool :=
  match verbose with
  | Some RAW => false
  | _ => true
  end.

(** The string-literal union ['UNSET' | 'ECONOMICAL' | 'CONSERVATIVE'] of the
    [send] and [sendAll] options. *)
Inductive EstimateMode : Type := ModeUnset | ModeEconomical | ModeConservative.

Definition EstimateMode_value (m : EstimateMode) : Value :=
  match m with
  | ModeUnset => VStr "UNSET"
  | ModeEconomical => VStr "ECONOMICAL"
  | ModeConservative => VStr "CONSERVATIVE"
  end.

(** The [options] argument of [send] and [sendAll]. *)
Record SendOptions : Type := {
  confTarget : option Z;
  estimateMode : option EstimateMode;
  feeRate : option Value;
  advancedOptions : option Value
}.

(** [options?.field] *)
Definition optional_chain {A : Type} (options : option SendOptions)
  (field : SendOptions -> option A) (f : A -> Value) : Value :=
  match options with
  | None => VUndefined
  | Some o => opt f (field o)
  end.

(** [types/BitcoinRawTransaction]: the argument of [getRawTransaction]. *)
Record BitcoinRawTransactionParams : Type := {
  txId : string;
  blockHash_param : option string;
  verbose_param : option BitcoinVerbosity
}.

Inductive DescriptorType : Type := Wpkh | Pkh | Sh | Tr.

Definition DescriptorType_value (t : DescriptorType) : Value :=
  match t with
  | Wpkh => VStr "wpkh"
  | Pkh => VStr "pkh"
  | Sh => VStr "sh"
  | Tr => VStr "tr"
  end.

Record RPCConfig : Type := {
  BITCOIND_HOST : string;
  BITCOIND_PORT : Z;
  BITCOIND_USERNAME : string;
  BITCOIND_PASSWORD : string
}.

Record RPCIniOptions : Type := {
  url : string;
  port : Z;
  user : string;
  pass : string
}.

(** The external transport client: a handle that remembers the options it
    was constructed from. *)
Record RPCClient : Type := { options : RPCIniOptions }.

Record BasicBlockInfo : Type := {
  blockHeight : Value;
  blockHash : Value
}.

Definition BasicBlockInfo_value (o : option BasicBlockInfo) : Value :=
  match o with
  | None => VNull
  | Some b => VObj [("blockHeight", blockHeight b); ("blockHash", blockHash b)]
  end.

(** The object returned by [setInterval]: its period, the time of its next
    firing, and whether [clearInterval] was applied to it. *)
Record Timeout : Type := {
  delay : Z;
  due : Z;
  cleared : bool
}.

(** The fields of a [BitcoinRPC] instance. *)
Record BitcoinRPC : Type := {
  rpc : option RPCClient;
  blockchainInfo : Value;
  currentBlockInfo : option BasicBlockInfo;
  purgeInterval : option Timeout;
  cacheClearInterval : Z;
  enableDebug : bool
}.

Inductive Level : Type := LevelLog | LevelError.

Record WireCall : Type := {
  via : RPCClient;
  procedure : string;
  arguments : list Value
}.

Record World : Type := {
  self : BitcoinRPC;
  console : list (Level * list string);
  wire : list WireCall;
  now : Z
}.

Definition with_self (o : BitcoinRPC) (w : World) : World :=
  {| self := o; console := console w; wire := wire w; now := now w |}.

Definition with_rpc (c : option RPCClient) (o : BitcoinRPC) : BitcoinRPC :=
  {| rpc := c; blockchainInfo := blockchainInfo o;
     currentBlockInfo := currentBlockInfo o;
     purgeInterval := purgeInterval o;
     cacheClearInterval := cacheClearInterval o;
     enableDebug := enableDebug o |}.

Definition with_blockchainInfo (v : Value) (o : BitcoinRPC) : BitcoinRPC :=
  {| rpc := rpc o; blockchainInfo := v;
     currentBlockInfo := currentBlockInfo o;
     purgeInterval := purgeInterval o;
     cacheClearInterval := cacheClearInterval o;
     enableDebug := enableDebug o |}.

Definition with_currentBlockInfo (b : option BasicBlockInfo) (o : BitcoinRPC)
  : BitcoinRPC :=
  {| rpc := rpc o; blockchainInfo := blockchainInfo o;
     currentBlockInfo := b;
     purgeInterval := purgeInterval o;
     cacheClearInterval := cacheClearInterval o;
     enableDebug := enableDebug o |}.

Definition with_purgeInterval (t : option Timeout) (o : BitcoinRPC)
  : BitcoinRPC :=
  {| rpc := rpc o; blockchainInfo := blockchainInfo o;
     currentBlockInfo := currentBlockInfo o;
     purgeInterval := t;
     cacheClearInterval := cacheClearInterval o;
     enableDebug := enableDebug o |}.

(** ** The monad of method bodies *)

Inductive Outcome (A : Type) : Type :=
| Returned (a : A)
| Thrown (e : Value)
| Exited (code : Z).

Arguments Returned {A} a.
Arguments Thrown {A} e.
Arguments Exited {A} code.

Definition M (A : Type) : Type := World -> Outcome A * World.

Definition ret {A : Type} (a : A) : M A := fun w => (Returned a, w).

Definition bind {A B : Type} (m : M A) (k : A -> M B) : M B :=
  fun w =>
    match m w with
    | (Returned a, w') => k a w'
    | (Thrown e, w') => (Thrown e, w')
    | (Exited code, w') => (Exited code, w')
    end.

Definition throw {A : Type} (e : Value) : M A := fun w => (Thrown e, w).

(** [process.exit(code)]: nothing runs afterwards, no handler sees it. *)
Definition process_exit {A : Type} (code : Z) : M A :=
  fun w => (Exited code, w).

(** [promise.catch(handler)] and [try { m } catch (e) { handler }]. *)
Definition catch {A : Type} (m : M A) (handler : Value -> M A) : M A :=
  fun w =>
    match m w with
    | (Thrown e, w') => handler e w'
    | r => r
    end.

Definition this : M BitcoinRPC := fun w => (Returned (self w), w).

Definition assign (f : BitcoinRPC -> BitcoinRPC) : M unit :=
  fun w => (Returned tt, with_self (f (self w)) w).

Declare Scope js_scope.
Delimit Scope js_scope with js.

Notation "x <- m ;; k" := (bind m (fun x => k))
  (at level 100, m at next level, right associativity) : js_scope.
Notation "m ;; k" := (bind m (fun _ => k))
  (at level 100, right associativity) : js_scope.

Open Scope js_scope.

(** ** The [Logger] base class *)

Definition emit (level : Level) (args : list string) : M unit :=
  fun w =>
    (Returned tt,
     {| self := self w; console := console w ++ [(level, args)];
        wire := wire w; now := now w |}).

Definition Logger_log (message : string) : M unit := emit LevelLog [message].
Definition Logger_error (args : list string) : M unit := emit LevelError args.

(** [public override error(...args)] *)
Definition error (args : list string) : M unit :=
  o <- this ;;
  if enableDebug o then Logger_error args else ret tt.

(** [private debugMessage(message)] *)
Definition debugMessage (message : string) : M unit :=
  o <- this ;;
  if enableDebug o then Logger_log message else ret tt.

(** [if (!this.rpc) { throw new Error('RPC not initialized'); }], yielding
    the handle the rest of the body uses. *)
Definition initialized_rpc : M RPCClient :=
  o <- this ;;
  match rpc o with
  | None => throw (VError "RPC not initialized")
  | Some c => ret c
  end.

(** ** The transport *)

Inductive Response : Type :=
| Resolve (result : Value)
| Reject (reason : Value).

Definition Transport : Type :=
  nat -> RPCClient -> string -> list Value -> Response.

(** [v.name] inside a method body. *)
Definition get_member (v : Value) (name : string) : M Value :=
  match member v name with
  | inl x => ret x
  | inr type_error => throw type_error
  end.

(** [param = d] in a parameter list: the default replaces [undefined]. *)
Definition default {A : Type} (d : A) (o : option A) : A :=
  match o with
  | Some a => a
  | None => d
  end.

(** The handlers given to [.catch]: log through [this.error], then either
    yield a replacement value or throw the reason again. *)
Definition logs_and_returns (label : string) (replacement : Value)
  : Value -> M Value :=
  fun e => (error [label ++ to_string e] ;; ret replacement).

Definition logs_and_throws (label : string) : Value -> M Value :=
  fun e => (error [label ++ to_string e] ;; throw e).

(** ** The methods of [BitcoinRPC] *)

Section Client.

(** The node behind the transport: its answer to a request, given how many
    requests were made before it. *)
Variable node : Transport.

(** The enum members declared outside this file, as they go on the wire:
    the codes of [BitcoinVerbosity] and [FeeEstimation.CONSERVATIVE]. *)
Variable verbosityCode : BitcoinVerbosity -> Value.
Variable FeeEstimation_CONSERVATIVE : Value.

(** [await this.rpc.procedure(...arguments)] *)
Definition call (c : RPCClient) (procedure : string) (arguments : list Value)
  : M Value :=
  fun w =>
    let w' :=
      {| self := self w; console := console w;
         wire := wire w ++ [{| via := c; procedure := procedure;
                               arguments := arguments |}];
         now := now w |} in
    match node (length (wire w)) c procedure arguments with
    | Resolve result => (Returned result, w')
    | Reject reason => (Thrown reason, w')
    end.

Definition getBestBlockHash : M Value :=
  debugMessage "getBestBlockHash" ;;
  rpc <- initialized_rpc ;;
  bestBlockHash <-
    catch (call rpc "getbestblockhash" [])
          (logs_and_returns "Error getting best block hash: " VUndefined) ;;
  ret (bestBlockHash ||| VNull).

Definition getBlockBatch (blockHashes : list string) : M Value :=
  debugMessage "getBlockBatch" ;;
  rpc <- initialized_rpc ;;
  blockData <-
    catch (call rpc "getblockBatch" [strings blockHashes])
          (logs_and_returns "Error getting block batch: " VNull) ;;
  ret (blockData ||| VNull).

Definition getBestBlockHeader (verbose : option bool) : M Value :=
  let verbose := default true verbose in
  debugMessage "getBestBlockHeader" ;;
  rpc <- initialized_rpc ;;
  let params := VObj [("verbose", VBool verbose)] in
  result <-
    catch (call rpc "getbestblockheader" [params])
          (logs_and_returns "Error getting best block header: " VNull) ;;
  ret result.

Definition getDeploymentInfo (blockHash : option string) : M Value :=
  debugMessage
    ("getDeploymentInfo " ++ to_string (opt VStr blockHash ||| VStr "tip")) ;;
  rpc <- initialized_rpc ;;
  let params :=
    if truthy (opt VStr blockHash)
    then VObj [("blockhash", opt VStr blockHash)]
    else VObj [] in
  result <-
    catch (call rpc "getdeploymentinfo" [params])
          (logs_and_returns "Error getting deployment info: " VNull) ;;
  ret result.

Definition getMempoolEntryById (wtxid : string) : M Value :=
  debugMessage ("getMempoolEntryById " ++ wtxid) ;;
  rpc <- initialized_rpc ;;
  let params := VObj [("wtxid", VStr wtxid)] in
  result <-
    catch (call rpc "getmempoolentrybyid" [params])
          (logs_and_returns "Error getting mempool entry by id: " VNull) ;;
  ret result.

Definition generate (nBlocks : Z) (maxTries : option Z)
  (wallet : option string) : M Value :=
  debugMessage ("generate " ++ string_of_Z nBlocks ++ " blocks") ;;
  rpc <- initialized_rpc ;;
  let params :=
    VObj [("nblocks", VNum nBlocks); ("maxtries", opt VNum maxTries)] in
  result <-
    catch (call rpc "generate" [params; opt VStr wallet])
          (logs_and_returns "Error generating blocks: " VNull) ;;
  ret result.

Definition generateBlock (output : string)
  (transactions : option (list string)) (submit : option bool) : M Value :=
  let transactions := default [] transactions in
  let submit := default true submit in
  debugMessage ("generateBlock to " ++ output) ;;
  rpc <- initialized_rpc ;;
  let params :=
    VObj [("output", VStr output); ("transactions", strings transactions);
          ("submit", VBool submit)] in
  result <-
    catch (call rpc "generateblock" [params])
          (logs_and_returns "Error generating block: " VNull) ;;
  ret result.

Definition addPeerAddress (address : string) (port : Z)
  (tried : option bool) : M Value :=
  let tried := default false tried in
  debugMessage ("addPeerAddress " ++ address ++ ":" ++ string_of_Z port) ;;
  rpc <- initialized_rpc ;;
  let params :=
    VObj [("address", VStr address); ("port", VNum port);
          ("tried", VBool tried)] in
  result <-
    catch (call rpc "addpeeraddress" [params])
          (logs_and_returns "Error adding peer address: " VNull) ;;
  ret result.

Definition getNodeAddresses (count : option Z) : M Value :=
  debugMessage
    ("getNodeAddresses " ++ to_string (opt VNum count ||| VStr "default")) ;;
  rpc <- initialized_rpc ;;
  let params :=
    if truthy (opt VNum count)
    then VObj [("count", opt VNum count)]
    else VObj [] in
  result <-
    catch (call rpc "getnodeaddresses" [params])
          (logs_and_returns "Error getting node addresses: " VNull) ;;
  ret result.

Definition sendMsgToPeer (peerId : Z) (msgType data : string) : M Value :=
  debugMessage ("sendMsgToPeer to peer " ++ string_of_Z peerId) ;;
  rpc <- initialized_rpc ;;
  let params :=
    VObj [("peer_id", VNum peerId); ("msg_type", VStr msgType);
          ("data", VStr data)] in
  catch (call rpc "sendmsgtopeer" [params])
        (logs_and_throws "Error sending message to peer: ") ;;
  ret VUndefined.

Definition submitPackage (packageTxs : list string)
  (maxFeeRate maxBurnAmount : option Value) : M Value :=
  debugMessage
    ("submitPackage with " ++ string_of_Z (Z.of_nat (length packageTxs))
     ++ " transactions") ;;
  rpc <- initialized_rpc ;;
  let params :=
    VObj [("package", strings packageTxs);
          ("maxfeerate", opt id maxFeeRate);
          ("maxburnamount", opt id maxBurnAmount)] in
  result <-
    catch (call rpc "submitpackage" [params])
          (logs_and_returns "Error submitting package: " VNull) ;;
  ret result.

Definition getIndexInfo (indexName : option string) : M Value :=
  debugMessage
    ("getIndexInfo " ++ to_string (opt VStr indexName ||| VStr "all")) ;;
  rpc <- initialized_rpc ;;
  let params :=
    if truthy (opt VStr indexName)
    then VObj [("index_name", opt VStr indexName)]
    else VObj [] in
  result <-
    catch (call rpc "getindexinfo" [params])
          (logs_and_returns "Error getting index info: " VNull) ;;
  ret result.

Definition verifyChainLock (blockHash signature : string) (height : Z)
  : M Value :=
  debugMessage ("verifyChainLock for block " ++ blockHash) ;;
  rpc <- initialized_rpc ;;
  let params :=
    VObj [("blockhash", VStr blockHash); ("signature", VStr signature);
          ("height", VNum height)] in
  result <-
    catch (call rpc "verifychainlock" [params])
          (logs_and_returns "Error verifying chainlock: " VNull) ;;
  ret result.

Definition createWalletDescriptor (type : DescriptorType)
  (internal : option bool) (hdkey wallet : option string) : M Value :=
  debugMessage
    ("createWalletDescriptor type: "
     ++ to_string (DescriptorType_value type)) ;;
  rpc <- initialized_rpc ;;
  let params :=
    VObj [("type", DescriptorType_value type);
          ("internal", opt VBool internal); ("hdkey", opt VStr hdkey)] in
  result <-
    catch (call rpc "createwalletdescriptor" [params; opt VStr wallet])
          (logs_and_returns "Error creating wallet descriptor: " VNull) ;;
  ret result.

Definition getHDKeys (activeOnly privateKeys : option bool)
  (wallet : option string) : M Value :=
  let activeOnly := default false activeOnly in
  let privateKeys := default false privateKeys in
  debugMessage "getHDKeys" ;;
  rpc <- initialized_rpc ;;
  let params :=
    VObj [("active_only", VBool activeOnly);
          ("private", VBool privateKeys)] in
  result <-
    catch (call rpc "gethdkeys" [params; opt VStr wallet])
          (logs_and_returns "Error getting HD keys: " VNull) ;;
  ret result.

Definition importDescriptors (requests : list Value)
  (wallet : option string) : M Value :=
  debugMessage
    ("importDescriptors with " ++ string_of_Z (Z.of_nat (length requests))
     ++ " descriptors") ;;
  rpc <- initialized_rpc ;;
  let params := VObj [("requests", VArr requests)] in
  result <-
    catch (call rpc "importdescriptors" [params; opt VStr wallet])
          (logs_and_returns "Error importing descriptors: " VNull) ;;
  ret result.

Definition listDescriptors (includePrivate : option bool)
  (wallet : option string) : M Value :=
  let includePrivate := default false includePrivate in
  debugMessage "listDescriptors" ;;
  rpc <- initialized_rpc ;;
  let params := VObj [("private", VBool includePrivate)] in
  result <-
    catch (call rpc "listdescriptors" [params; opt VStr wallet])
          (logs_and_returns "Error listing descriptors: " VNull) ;;
  ret result.

Definition migrateWallet (walletName passphrase : option string)
  : M Value :=
  debugMessage
    ("migrateWallet " ++ to_string (opt VStr walletName ||| VStr "default")) ;;
  rpc <- initialized_rpc ;;
  let params :=
    VObj [("wallet_name", opt VStr walletName);
          ("passphrase", opt VStr passphrase)] in
  result <-
    catch (call rpc "migratewallet" [params])
          (logs_and_returns "Error migrating wallet: " VNull) ;;
  ret result.

Definition newKeypool (wallet : option string) : M Value :=
  debugMessage "newKeypool" ;;
  rpc <- initialized_rpc ;;
  catch (call rpc "newkeypool" [opt VStr wallet])
        (logs_and_throws "Error creating new keypool: ") ;;
  ret VUndefined.

Definition psbtBumpFee (txid : string) (options : option Value)
  (wallet : option string) : M Value :=
  debugMessage ("psbtBumpFee for " ++ txid) ;;
  rpc <- initialized_rpc ;;
  let params := VObj [("txid", VStr txid); ("options", opt id options)] in
  result <-
    catch (call rpc "psbtbumpfee" [params; opt VStr wallet])
          (logs_and_returns "Error bumping fee with PSBT: " VNull) ;;
  ret result.

Definition send (outputs : Value) (options : option SendOptions)
  (wallet : option string) : M Value :=
  debugMessage "send transaction" ;;
  rpc <- initialized_rpc ;;
  let params :=
    VObj [("outputs", outputs);
          ("conf_target", optional_chain options confTarget VNum);
          ("estimate_mode",
           optional_chain options estimateMode EstimateMode_value);
          ("fee_rate", optional_chain options feeRate id);
          ("options", optional_chain options advancedOptions id)] in
  result <-
    catch (call rpc "send" [params; opt VStr wallet])
          (logs_and_returns "Error sending transaction: " VNull) ;;
  ret result.

Definition sendAll (recipients : Value) (options : option SendOptions)
  (wallet : option string) : M Value :=
  debugMessage "sendAll transaction" ;;
  rpc <- initialized_rpc ;;
  let params :=
    VObj [("recipients", recipients);
          ("conf_target", optional_chain options confTarget VNum);
          ("estimate_mode",
           optional_chain options estimateMode EstimateMode_value);
          ("fee_rate", optional_chain options feeRate id);
          ("options", optional_chain options advancedOptions id)] in
  result <-
    catch (call rpc "sendall" [params; opt VStr wallet])
          (logs_and_returns "Error sending all: " VNull) ;;
  ret result.

Definition simulateRawTransaction (rawTxs : option (list string))
  (includeWatchOnly : option bool) (wallet : option string) : M Value :=
  let rawTxs := default [] rawTxs in
  let includeWatchOnly := default false includeWatchOnly in
  debugMessage "simulateRawTransaction" ;;
  rpc <- initialized_rpc ;;
  let params :=
    VObj [("rawtxs", strings rawTxs);
          ("options",
           VObj [("include_watchonly", VBool includeWatchOnly)])] in
  result <-
    catch (call rpc "simulaterawtransaction" [params; opt VStr wallet])
          (logs_and_returns "Error simulating transaction: " VNull) ;;
  ret result.

Definition upgradeWallet (version : option Z) (wallet : option string)
  : M Value :=
  debugMessage
    ("upgradeWallet to version "
     ++ to_string (opt VNum version ||| VStr "latest")) ;;
  rpc <- initialized_rpc ;;
  let params :=
    if truthy (opt VNum version)
    then VObj [("version", opt VNum version)]
    else VObj [] in
  result <-
    catch (call rpc "upgradewallet" [params; opt VStr wallet])
          (logs_and_returns "Error upgrading wallet: " VNull) ;;
  ret result.

Definition getBlockAsHexString (blockHash : string) : M Value :=
  debugMessage "getBlockAsHexString" ;;
  rpc <- initialized_rpc ;;
  let param :=
    VObj [("blockhash", VStr blockHash);
          ("verbosity", verbosityCode NONE)] in
  blockData <-
    catch (call rpc "getblock" [param])
          (logs_and_returns "Error getting block data: " VNull) ;;
  ret (if loose_eq_empty blockData then VNull else blockData).

Definition estimateSmartFee (confTarget : Z)
  (estimateMode : option Value) : M Value :=
  let estimateMode := default FeeEstimation_CONSERVATIVE estimateMode in
  debugMessage "estimateSmartFee" ;;
  rpc <- initialized_rpc ;;
  let opts :=
    VObj [("conf_target", VNum confTarget);
          ("estimate_mode", estimateMode)] in
  call rpc "estimatesmartfee" [opts].

Definition joinPSBTs (psbts : list string) : M Value :=
  debugMessage "joinPSBTs" ;;
  rpc <- initialized_rpc ;;
  result <-
    catch (call rpc "joinpsbts" [VObj [("txs", strings psbts)]])
          (logs_and_returns "Error joining PSBTs: " (VStr "")) ;;
  ret (result ||| VNull).

Definition getBlockInfoOnly (blockHash : string) : M Value :=
  debugMessage "getBlockInfoOnly" ;;
  rpc <- initialized_rpc ;;
  let param :=
    VObj [("blockhash", VStr blockHash);
          ("verbosity", verbosityCode RAW)] in
  blockData <-
    catch (call rpc "getblock" [param])
          (logs_and_returns "Error getting block data: " VNull) ;;
  ret (blockData ||| VNull).

Definition getBlockInfoWithTransactionData (blockHash : string) : M Value :=
  debugMessage ("getBlockInfoWithTransactionData " ++ blockHash) ;;
  rpc <- initialized_rpc ;;
  let param :=
    VObj [("blockhash", VStr blockHash); ("verbosity", VNum 2)] in
  blockData <-
    catch (call rpc "getblock" [param])
          (logs_and_returns "Error getting block data: " VNull) ;;
  ret (blockData ||| VNull).

Definition getBlockHashes (height count : Z) : M Value :=
  debugMessage
    ("getBlockHashes " ++ string_of_Z height ++ " " ++ string_of_Z count) ;;
  rpc <- initialized_rpc ;;
  let param := VObj [("height", VNum height)] in
  blockHashes <-
    catch (call rpc "getblockhashes" [param; VNum count])
          (logs_and_returns "Error getting block hashes: " (VArr [])) ;;
  ret (blockHashes ||| VNull).

Definition getBlocksInfoWithTransactionData (blockHashes : list string)
  : M Value :=
  rpc <- initialized_rpc ;;
  blockData <-
    catch (call rpc "getblockBatch" [strings blockHashes; VNum 2])
          (logs_and_returns "Error getting block data: " VNull) ;;
  ret (blockData ||| VNull).

Definition getBlockCount : M Value :=
  debugMessage "getBlockCount" ;;
  rpc <- initialized_rpc ;;
  blockCount <-
    catch (call rpc "getblockcount" [])
          (logs_and_returns "Error getting block count: " (VNum 0)) ;;
  ret (blockCount ??? VNull).

Definition getBlockFilter (blockHash : string) (filterType : option string)
  : M Value :=
  debugMessage ("getBlockFilter " ++ blockHash) ;;
  rpc <- initialized_rpc ;;
  let param :=
    VObj [("blockhash", VStr blockHash);
          ("filtertype", opt VStr filterType)] in
  result <-
    catch (call rpc "getblockfilter" [param])
          (logs_and_returns "Error getting block filter: " VNull) ;;
  ret (result ||| VNull).

Definition getBlockHash (height : Z) : M Value :=
  debugMessage ("getBlockHash " ++ string_of_Z height) ;;
  rpc <- initialized_rpc ;;
  let param := VObj [("height", VNum height)] in
  result <-
    catch (call rpc "getblockhash" [param])
          (logs_and_returns "Error getting block hash: " (VStr "")) ;;
  ret (result ||| VNull).

Definition getChainInfo : M Value :=
  debugMessage "getChainInfo" ;;
  rpc <- initialized_rpc ;;
  fetched <- call rpc "getblockchaininfo" [] ;;
  assign (with_blockchainInfo fetched) ;;
  o <- this ;;
  (if truthy (blockchainInfo o)
   then
     blocks <- get_member (blockchainInfo o) "blocks" ;;
     bestblockhash <- get_member (blockchainInfo o) "bestblockhash" ;;
     assign (with_currentBlockInfo
               (Some {| blockHeight := blocks; blockHash := bestblockhash |}))
   else ret tt) ;;
  o <- this ;;
  ret (blockchainInfo o).

Definition getWalletInfo (walletName : string) : M Value :=
  debugMessage ("getWalletInfo " ++ walletName) ;;
  rpc <- initialized_rpc ;;
  walletInfo <-
    catch (call rpc "getwalletinfo" [VStr walletName])
          (logs_and_returns "Error getting wallet info: " VNull) ;;
  ret (walletInfo ||| VNull).

Definition createWallet (params : Value) : M Value :=
  debugMessage "createWallet" ;;
  rpc <- initialized_rpc ;;
  wallet <-
    catch (call rpc "createwallet" [params])
          (logs_and_returns "Error creating wallet: " (VStr "")) ;;
  ret (wallet ||| VNull).

Definition loadWallet (filename : string) : M Value :=
  debugMessage ("loadWallet " ++ filename) ;;
  rpc <- initialized_rpc ;;
  let params := VObj [("filename", VStr filename)] in
  wallet <-
    catch (call rpc "loadwallet" [params])
          (logs_and_returns "Error loading wallet: " (VStr "")) ;;
  ret (wallet ||| VNull).

Definition listWallets : M Value :=
  debugMessage "listWallets" ;;
  rpc <- initialized_rpc ;;
  wallets <-
    catch (call rpc "listwallets" [])
          (logs_and_returns "Error listing wallets: " (VArr [])) ;;
  ret (wallets ||| VNull).

Definition getNewAddress (label : string) (wallet : option string)
  : M Value :=
  debugMessage ("getNewAddress " ++ label) ;;
  rpc <- initialized_rpc ;;
  let params := VObj [("label", VStr label)] in
  address <-
    catch (call rpc "getnewaddress" [params; opt VStr wallet])
          (logs_and_returns "Error getting new address: " (VStr "")) ;;
  ret (address ||| VNull).

Definition generateToAddress (nBlock : Z) (address : string)
  (wallet : option string) : M Value :=
  debugMessage
    ("generateToAddress " ++ string_of_Z nBlock ++ " " ++ address) ;;
  rpc <- initialized_rpc ;;
  let params :=
    VObj [("nblocks", VNum nBlock); ("address", VStr address)] in
  blockHashes <-
    catch (call rpc "generatetoaddress" [params; opt VStr wallet])
          (logs_and_returns "Error generating to address: " (VArr [])) ;;
  ret (blockHashes ||| VNull).

Definition importPrivateKey (privateKey label : string)
  (rescan : option bool) (wallet : option string) : M Value :=
  debugMessage ("importPrivateKey " ++ label) ;;
  rpc <- initialized_rpc ;;
  let params :=
    VObj [("privkey", VStr privateKey); ("label", VStr label);
          ("rescan", opt VBool rescan)] in
  catch (call rpc "importprivkey" [params; opt VStr wallet])
        (logs_and_returns "Error importing private key: " VUndefined) ;;
  ret VUndefined.

Definition invalidateBlock (blockHash : string) : M Value :=
  debugMessage ("invalidateBlock " ++ blockHash) ;;
  rpc <- initialized_rpc ;;
  let param := VObj [("blockhash", VStr blockHash)] in
  catch (call rpc "invalidateblock" [param])
        (logs_and_throws "Error invalidating block: ") ;;
  ret VUndefined.

Definition reconsiderBlock (blockHash : string) : M Value :=
  debugMessage ("reconsiderBlock " ++ blockHash) ;;
  rpc <- initialized_rpc ;;
  let param := VObj [("blockhash", VStr blockHash)] in
  catch (call rpc "reconsiderblock" [param])
        (logs_and_throws "Error reconsidering block: ") ;;
  ret VUndefined.

Definition getAddressByLabel (label : string) (wallet : option string)
  : M Value :=
  debugMessage ("getAddressByLabel " ++ label) ;;
  rpc <- initialized_rpc ;;
  let params := VObj [("label", VStr label)] in
  address <-
    catch (call rpc "getaddressesbylabel" [params; opt VStr wallet])
          (logs_and_throws "Error getting address by label: ") ;;
  ret (address ||| VNull).

Definition sendRawTransaction (params : Value) : M Value :=
  debugMessage "sendRawTransaction" ;;
  rpc <- initialized_rpc ;;
  txId <-
    catch (call rpc "sendrawtransaction" [params])
          (fun e => throw e) ;;
  ret (txId ||| VNull).

Definition decodeRawTransaction (hexString : string)
  (isWitness : option bool) : M Value :=
  let isWitness := default false isWitness in
  debugMessage ("decodeRawTransaction " ++ hexString) ;;
  rpc <- initialized_rpc ;;
  let params :=
    VObj [("hexstring", VStr hexString); ("iswitness", VBool isWitness)] in
  rawTx <-
    catch (call rpc "decoderawtransaction" [params])
          (logs_and_returns "Error decoding raw transaction: " VNull) ;;
  ret (rawTx ||| VNull).

Definition dumpPrivateKey (address : string) (wallet : option string)
  : M Value :=
  debugMessage ("dumpPrivateKey " ++ address) ;;
  rpc <- initialized_rpc ;;
  privateKey <-
    catch (call rpc "dumpprivkey"
                [VObj [("address", VStr address)]; opt VStr wallet])
          (logs_and_returns "Error dumping private key: " (VStr "")) ;;
  ret (privateKey ||| VNull).

(** The wire parameter object of [getRawTransaction]: the literal, then
    the conditional assignment of [params.blockhash]. *)
Definition getRawTransaction_params (parameters : BitcoinRawTransactionParams)
  : list (string * Value) :=
  let params :=
    [("txid", VStr (txId parameters));
     ("verbose", VBool (not_RAW (verbose_param parameters)))] in
  if truthy (opt VStr (blockHash_param parameters))
  then params ++ [("blockhash", opt VStr (blockHash_param parameters))]
  else params.

Definition getRawTransaction (parameters : BitcoinRawTransactionParams)
  : M Value :=
  debugMessage ("getRawTransaction " ++ txId parameters) ;;
  rpc <- initialized_rpc ;;
  let params := VObj (getRawTransaction_params parameters) in
  rawTx <-
    catch (call rpc "getrawtransaction" [params])
          (logs_and_returns "Error getting raw transaction: " VNull) ;;
  ret (rawTx ||| VNull).

Definition getRawTransactions (txs : list string)
  (verbose : option BitcoinVerbosity) : M Value :=
  debugMessage ("getRawTransactions " ++ to_string (strings txs)) ;;
  rpc <- initialized_rpc ;;
  txsInfo <-
    catch (call rpc "getrawtransactionBatch"
                [strings txs; VBool (not_RAW verbose)])
          (logs_and_returns "Error getting raw transactions: " VNull) ;;
  ret (txsInfo ||| VNull).

Definition getBlockHeight : M Value :=
  debugMessage "getBlockHeight" ;;
  _ <- initialized_rpc ;;
  o <- this ;;
  match currentBlockInfo o with
  | None => getChainInfo
  | Some _ => ret VUndefined
  end ;;
  o <- this ;;
  ret (BasicBlockInfo_value (currentBlockInfo o)).

Definition getBlockHeader (blockHash : string) (verbose : option bool)
  : M Value :=
  debugMessage
    ("getBlockHeader " ++ blockHash ++ " " ++ to_string (opt VBool verbose)) ;;
  rpc <- initialized_rpc ;;
  let param :=
    VObj [("blockhash", VStr blockHash); ("verbose", opt VBool verbose)] in
  header <-
    catch (call rpc "getblockheader" [param])
          (logs_and_returns "Error getting block header: " (VStr "")) ;;
  ret (header ||| VNull).

Definition getBlockStatsByHeight (height : Z) (stats : option (list string))
  : M Value :=
  debugMessage
    ("getBlockStatsByHeight " ++ string_of_Z height ++ " "
     ++ to_string (opt strings stats)) ;;
  rpc <- initialized_rpc ;;
  let param :=
    VObj [("hash_or_height", VNum height); ("stats", opt strings stats)] in
  blockStats <-
    catch (call rpc "getblockstats" [param])
          (logs_and_returns "Error getting block stats: " VNull) ;;
  ret (blockStats ||| VNull).

Definition getBlockStatsByHash (blockHash : string)
  (stats : option (list string)) : M Value :=
  debugMessage
    ("getBlockStatsByHash " ++ blockHash ++ " "
     ++ to_string (opt strings stats)) ;;
  rpc <- initialized_rpc ;;
  let param :=
    VObj [("hash_or_height", VStr blockHash);
          ("stats", opt strings stats)] in
  blockStats <-
    catch (call rpc "getblockstats" [param])
          (logs_and_returns "Error getting block stats: " VNull) ;;
  ret (blockStats ||| VNull).

Definition getChainTips : M Value :=
  debugMessage "getChainTips" ;;
  rpc <- initialized_rpc ;;
  tips <-
    catch (call rpc "getchaintips" [])
          (logs_and_returns "Error getting chain tips: " VNull) ;;
  ret (tips ||| VNull).

Definition getChainTxStats (param : Value) : M Value :=
  debugMessage "getChainTxStats" ;;
  rpc <- initialized_rpc ;;
  chainTxStats <-
    catch (call rpc "getchaintxstats" [param])
          (logs_and_returns "Error getting chain tx stats: " VNull) ;;
  ret (chainTxStats ||| VNull).

Definition getDifficulty : M Value :=
  debugMessage "getDifficulty" ;;
  rpc <- initialized_rpc ;;
  difficulty <-
    catch (call rpc "getdifficulty" [])
          (logs_and_returns "Error getting difficulty: " (VNum 0)) ;;
  ret (difficulty ??? VNull).

Definition getMempoolAncestors (txId : string)
  (verbose : option BitcoinVerbosity) : M Value :=
  debugMessage ("getMempoolAncestors " ++ txId) ;;
  rpc <- initialized_rpc ;;
  let param :=
    VObj [("txid", VStr txId); ("verbose", VBool (not_RAW verbose))] in
  transactionInfo <-
    catch (call rpc "getmempoolancestors" [param])
          (logs_and_returns "Error getting mempool ancestors: " VNull) ;;
  ret (transactionInfo ||| VNull).

Definition getMempoolDescendants (txid : string)
  (verbose : option BitcoinVerbosity) : M Value :=
  debugMessage ("getMempoolDescendants " ++ txid) ;;
  rpc <- initialized_rpc ;;
  let param :=
    VObj [("txid", VStr txid); ("verbose", VBool (not_RAW verbose))] in
  transactionInfo <-
    catch (call rpc "getmempooldescendants" [param])
          (logs_and_returns "Error getting mempool descendants: " VNull) ;;
  ret (transactionInfo ||| VNull).

Definition getMempoolEntry (txid : string) : M Value :=
  debugMessage ("getMempoolEntry " ++ txid) ;;
  rpc <- initialized_rpc ;;
  let param := VObj [("txid", VStr txid)] in
  transactionInfo <-
    catch (call rpc "getmempoolentry" [param])
          (logs_and_returns "Error getting mempool entry: " VNull) ;;
  ret (transactionInfo ||| VNull).

Definition getMempoolInfo : M Value :=
  debugMessage "getMempoolInfo" ;;
  rpc <- initialized_rpc ;;
  mempoolInfo <-
    catch (call rpc "getmempoolinfo" [])
          (logs_and_returns "Error getting mempool info: " VNull) ;;
  ret (mempoolInfo ||| VNull).

Definition getRawMempool (verbose : option BitcoinVerbosity) : M Value :=
  debugMessage "getRawMempool" ;;
  rpc <- initialized_rpc ;;
  let param := VObj [("verbose", VBool (not_RAW verbose))] in
  mempoolInfo <-
    catch (call rpc "getrawmempool" [param])
          (logs_and_returns "Error getting raw mempool: " VNull) ;;
  ret (mempoolInfo ||| VNull).

Definition getTxOut (txid : string) (voutNumber : Z)
  (includeMempool : option bool) : M Value :=
  debugMessage ("getTxOut " ++ txid ++ " " ++ string_of_Z voutNumber) ;;
  rpc <- initialized_rpc ;;
  let param :=
    VObj [("n", VNum voutNumber); ("txid", VStr txid);
          ("include_mempool", opt VBool includeMempool)] in
  txOuputInfo <-
    catch (call rpc "gettxout" [param])
          (logs_and_returns "Error getting tx out: " VNull) ;;
  ret (txOuputInfo ||| VNull).

Definition getTxOutProof (txids : list string) (blockHash : option string)
  : M Value :=
  debugMessage
    ("getTxOutProof " ++ to_string (strings txids) ++ " "
     ++ to_string (opt VStr blockHash)) ;;
  rpc <- initialized_rpc ;;
  let param :=
    VObj [("txids", strings txids); ("blockhash", opt VStr blockHash)] in
  txOuputProof <-
    catch (call rpc "gettxoutproof" [param])
          (logs_and_returns "Error getting tx out proof: " (VStr "")) ;;
  ret (txOuputProof ||| VNull).

Definition getTxOutSetInfo : M Value :=
  debugMessage "getTxOutSetInfo" ;;
  rpc <- initialized_rpc ;;
  txOuputSetInfo <-
    catch (call rpc "gettxoutsetinfo" [])
          (logs_and_returns "Error getting tx out set info: " VNull) ;;
  ret (txOuputSetInfo ||| VNull).

Definition preciousBlock (blockHash : string) : M Value :=
  debugMessage ("preciousBlock " ++ blockHash) ;;
  rpc <- initialized_rpc ;;
  let param := VObj [("blockhash", VStr blockHash)] in
  catch (call rpc "preciousblock" [param])
        (logs_and_returns "Error precious block: " VUndefined) ;;
  ret VUndefined.

Definition pruneBlockChain (height : Z) : M Value :=
  debugMessage ("pruneBlockChain " ++ string_of_Z height) ;;
  rpc <- initialized_rpc ;;
  let param := VObj [("height", VNum height)] in
  prunedHeight <-
    catch (call rpc "pruneblockchain" [param])
          (logs_and_returns "Error pruning blockchain: " (VNum 0)) ;;
  ret (prunedHeight ??? VNull).

Definition saveMempool : M Value :=
  debugMessage "saveMempool" ;;
  rpc <- initialized_rpc ;;
  catch (call rpc "savemempool" [])
        (logs_and_returns "Error saving mempool: " VUndefined) ;;
  ret VUndefined.

Definition verifyChain (checkLevel nblocks : option Z) : M Value :=
  debugMessage
    ("verifyChain " ++ to_string (opt VNum checkLevel) ++ " "
     ++ to_string (opt VNum nblocks)) ;;
  rpc <- initialized_rpc ;;
  let param :=
    VObj [("checklevel", opt VNum checkLevel);
          ("nblocks", opt VNum nblocks)] in
  checked <-
    catch (call rpc "verifychain" [param])
          (logs_and_returns "Error verifying chain: " (VBool false)) ;;
  ret (checked ??? VNull).

Definition verifyTxOutProof (proof : string) : M Value :=
  debugMessage ("verifyTxOutProof " ++ proof) ;;
  rpc <- initialized_rpc ;;
  let param := VObj [("proof", VStr proof)] in
  proofs <-
    catch (call rpc "verifytxoutproof" [param])
          (logs_and_returns "Error verifying tx out proof: " (VArr [])) ;;
  ret (proofs ||| VNull).

(** ** Life cycle *)

Definition getRpcConfigFromBlockchainConfig (rpcInfo : RPCConfig)
  : RPCIniOptions :=
  {| url := "http://" ++ BITCOIND_HOST rpcInfo;
     port := BITCOIND_PORT rpcInfo;
     user := BITCOIND_USERNAME rpcInfo;
     pass := BITCOIND_PASSWORD rpcInfo |}.

(** [private async testRPC()] *)
Definition testRPC : M unit :=
  catch
    (chainInfo <- getChainInfo ;;
     if truthy chainInfo
     then ret tt
     else
       (error ["RPC errored. Please check your configuration."] ;;
        process_exit 1))
    (fun e =>
       message <- get_member e "message" ;;
       error ["RPC errored. Please check your configuration. "
              ++ to_string message]).

Definition init (rpcInfo : RPCConfig) : M unit :=
  o <- this ;;
  match rpc o with
  | Some _ => throw (VError "RPC already initialized")
  | None =>
      let rpcConfig := getRpcConfigFromBlockchainConfig rpcInfo in
      assign (with_rpc (Some {| options := rpcConfig |})) ;;
      testRPC
  end.

(** ** The exposed RPC methods as requests

    One constructor per public method that forwards to a remote procedure,
    with the arguments of the call. *)

Inductive Request : Type :=
| GetBestBlockHash
| GetBlockBatch (blockHashes : list string)
| GetBestBlockHeader (verbose : option bool)
| GetDeploymentInfo (blockHash : option string)
| GetMempoolEntryById (wtxid : string)
| Generate (nBlocks : Z) (maxTries : option Z) (wallet : option string)
| GenerateBlock (output : string) (transactions : option (list string))
    (submit : option bool)
| AddPeerAddress (address : string) (port : Z) (tried : option bool)
| GetNodeAddresses (count : option Z)
| SendMsgToPeer (peerId : Z) (msgType data : string)
| SubmitPackage (packageTxs : list string)
    (maxFeeRate maxBurnAmount : option Value)
| GetIndexInfo (indexName : option string)
| VerifyChainLock (blockHash signature : string) (height : Z)
| CreateWalletDescriptor (type : DescriptorType) (internal : option bool)
    (hdkey wallet : option string)
| GetHDKeys (activeOnly privateKeys : option bool) (wallet : option string)
| ImportDescriptors (requests : list Value) (wallet : option string)
| ListDescriptors (includePrivate : option bool) (wallet : option string)
| MigrateWallet (walletName passphrase : option string)
| NewKeypool (wallet : option string)
| PsbtBumpFee (txid : string) (options : option Value)
    (wallet : option string)
| Send (outputs : Value) (options : option SendOptions)
    (wallet : option string)
| SendAll (recipients : Value) (options : option SendOptions)
    (wallet : option string)
| SimulateRawTransaction (rawTxs : option (list string))
    (includeWatchOnly : option bool) (wallet : option string)
| UpgradeWallet (version : option Z) (wallet : option string)
| GetBlockAsHexString (blockHash : string)
| EstimateSmartFee (confTarget : Z) (estimateMode : option Value)
| JoinPSBTs (psbts : list string)
| GetBlockInfoOnly (blockHash : string)
| GetBlockInfoWithTransactionData (blockHash : string)
| GetBlockHashes (height count : Z)
| GetBlocksInfoWithTransactionData (blockHashes : list string)
| GetBlockCount
| GetBlockFilter (blockHash : string) (filterType : option string)
| GetBlockHash (height : Z)
| GetChainInfo
| GetWalletInfo (walletName : string)
| CreateWallet (params : Value)
| LoadWallet (filename : string)
| ListWallets
| GetNewAddress (label : string) (wallet : option string)
| GenerateToAddress (nBlock : Z) (address : string) (wallet : option string)
| ImportPrivateKey (privateKey label : string) (rescan : option bool)
    (wallet : option string)
| InvalidateBlock (blockHash : string)
| ReconsiderBlock (blockHash : string)
| GetAddressByLabel (label : string) (wallet : option string)
| SendRawTransaction (params : Value)
| DecodeRawTransaction (hexString : string) (isWitness : option bool)
| DumpPrivateKey (address : string) (wallet : option string)
| GetRawTransaction (parameters : BitcoinRawTransactionParams)
| GetRawTransactions (txs : list string) (verbose : option BitcoinVerbosity)
| GetBlockHeight
| GetBlockHeader (blockHash : string) (verbose : option bool)
| GetBlockStatsByHeight (height : Z) (stats : option (list string))
| GetBlockStatsByHash (blockHash : string) (stats : option (list string))
| GetChainTips
| GetChainTxStats (param : Value)
| GetDifficulty
| GetMempoolAncestors (txId : string) (verbose : option BitcoinVerbosity)
| GetMempoolDescendants (txid : string) (verbose : option BitcoinVerbosity)
| GetMempoolEntry (txid : string)
| GetMempoolInfo
| GetRawMempool (verbose : option BitcoinVerbosity)
| GetTxOut (txid : string) (voutNumber : Z) (includeMempool : option bool)
| GetTxOutProof (txids : list string) (blockHash : option string)
| GetTxOutSetInfo
| PreciousBlock (blockHash : string)
| PruneBlockChain (height : Z)
| SaveMempool
| VerifyChain (checkLevel nblocks : option Z)
| VerifyTxOutProof (proof : string).

Definition exec (r : Request) : M Value :=
  match r with
  | GetBestBlockHash => getBestBlockHash
  | GetBlockBatch a => getBlockBatch a
  | GetBestBlockHeader a => getBestBlockHeader a
  | GetDeploymentInfo a => getDeploymentInfo a
  | GetMempoolEntryById a => getMempoolEntryById a
  | Generate a b c => generate a b c
  | GenerateBlock a b c => generateBlock a b c
  | AddPeerAddress a b c => addPeerAddress a b c
  | GetNodeAddresses a => getNodeAddresses a
  | SendMsgToPeer a b c => sendMsgToPeer a b c
  | SubmitPackage a b c => submitPackage a b c
  | GetIndexInfo a => getIndexInfo a
  | VerifyChainLock a b c => verifyChainLock a b c
  | CreateWalletDescriptor a b c d => createWalletDescriptor a b c d
  | GetHDKeys a b c => getHDKeys a b c
  | ImportDescriptors a b => importDescriptors a b
  | ListDescriptors a b => listDescriptors a b
  | MigrateWallet a b => migrateWallet a b
  | NewKeypool a => newKeypool a
  | PsbtBumpFee a b c => psbtBumpFee a b c
  | Send a b c => send a b c
  | SendAll a b c => sendAll a b c
  | SimulateRawTransaction a b c => simulateRawTransaction a b c
  | UpgradeWallet a b => upgradeWallet a b
  | GetBlockAsHexString a => getBlockAsHexString a
  | EstimateSmartFee a b => estimateSmartFee a b
  | JoinPSBTs a => joinPSBTs a
  | GetBlockInfoOnly a => getBlockInfoOnly a
  | GetBlockInfoWithTransactionData a => getBlockInfoWithTransactionData a
  | GetBlockHashes a b => getBlockHashes a b
  | GetBlocksInfoWithTransactionData a => getBlocksInfoWithTransactionData a
  | GetBlockCount => getBlockCount
  | GetBlockFilter a b => getBlockFilter a b
  | GetBlockHash a => getBlockHash a
  | GetChainInfo => getChainInfo
  | GetWalletInfo a => getWalletInfo a
  | CreateWallet a => createWallet a
  | LoadWallet a => loadWallet a
  | ListWallets => listWallets
  | GetNewAddress a b => getNewAddress a b
  | GenerateToAddress a b c => generateToAddress a b c
  | ImportPrivateKey a b c d => importPrivateKey a b c d
  | InvalidateBlock a => invalidateBlock a
  | ReconsiderBlock a => reconsiderBlock a
  | GetAddressByLabel a b => getAddressByLabel a b
  | SendRawTransaction a => sendRawTransaction a
  | DecodeRawTransaction a b => decodeRawTransaction a b
  | DumpPrivateKey a b => dumpPrivateKey a b
  | GetRawTransaction a => getRawTransaction a
  | GetRawTransactions a b => getRawTransactions a b
  | GetBlockHeight => getBlockHeight
  | GetBlockHeader a b => getBlockHeader a b
  | GetBlockStatsByHeight a b => getBlockStatsByHeight a b
  | GetBlockStatsByHash a b => getBlockStatsByHash a b
  | GetChainTips => getChainTips
  | GetChainTxStats a => getChainTxStats a
  | GetDifficulty => getDifficulty
  | GetMempoolAncestors a b => getMempoolAncestors a b
  | GetMempoolDescendants a b => getMempoolDescendants a b
  | GetMempoolEntry a => getMempoolEntry a
  | GetMempoolInfo => getMempoolInfo
  | GetRawMempool a => getRawMempool a
  | GetTxOut a b c => getTxOut a b c
  | GetTxOutProof a b => getTxOutProof a b
  | GetTxOutSetInfo => getTxOutSetInfo
  | PreciousBlock a => preciousBlock a
  | PruneBlockChain a => pruneBlockChain a
  | SaveMempool => saveMempool
  | VerifyChain a b => verifyChain a b
  | VerifyTxOutProof a => verifyTxOutProof a
  end.

End Client.

(** ** Construction, the purge timer and destruction *)

(** The platform's [setInterval(callback, delay)]: a delay below 1 or above
    2147483647 is replaced by 1; the first firing is one delay from the
    moment of the call. *)
Definition TIMEOUT_MAX : Z := 2147483647.

Definition setInterval (requested clock : Z) : Timeout :=
  let delay :=
    if (1 <=? requested) && (requested <=? TIMEOUT_MAX) then requested else 1 in
  {| delay := delay; due := clock + delay; cleared := false |}.

Definition clearInterval (t : Timeout) : Timeout :=
  {| delay := delay t; due := due t; cleared := true |}.

(** The callback handed to [setInterval] by [purgeCachedData]. *)
Definition purge_callback (o : BitcoinRPC) : BitcoinRPC :=
  with_currentBlockInfo None (with_blockchainInfo VNull o).

(** [private purgeCachedData()] *)
Definition purgeCachedData : M unit :=
  fun w =>
    (Returned tt,
     with_self
       (with_purgeInterval
          (Some (setInterval (cacheClearInterval (self w)) (now w)))
          (self w))
       w).

(** [new BitcoinRPC(cacheClearInterval = 1000, enableDebug = false)] in a
    program whose clock reads [clock]. *)
Definition new_BitcoinRPC (cacheClearInterval : option Z)
  (enableDebug : option bool) (clock : Z) : World :=
  let fresh :=
    {| self := {| rpc := None; blockchainInfo := VNull;
                  currentBlockInfo := None; purgeInterval := None;
                  cacheClearInterval := default 1000 cacheClearInterval;
                  enableDebug := default false enableDebug |};
       console := []; wire := []; now := clock |} in
  snd (purgeCachedData fresh).

(** [public destroy()] *)
Definition destroy : M unit :=
  o <- this ;;
  match purgeInterval o with
  | Some t => assign (with_purgeInterval (Some (clearInterval t)))
  | None => ret tt
  end ;;
  assign (with_rpc None) ;;
  assign (with_blockchainInfo VNull) ;;
  assign (with_currentBlockInfo None).

(** How often a timer fires in the interval from the present up to and
    including the instant [until]. *)
Definition firings (t : Timeout) (until : Z) : Z :=
  if cleared t || (until <? due t) then 0
  else (until - due t) / delay t + 1.

(** [dt] milliseconds pass with no method running: the purge timer, when it
    is set and not cleared, runs its callback at each firing. *)
Definition elapse (dt : Z) (w : World) : World :=
  let later := now w + Z.max 0 dt in
  let o :=
    match purgeInterval (self w) with
    | None => self w
    | Some t =>
        let k := firings t later in
        with_purgeInterval
          (Some {| delay := delay t; due := due t + k * delay t;
                   cleared := cleared t |})
          (Nat.iter (Z.to_nat k) purge_callback (self w))
    end in
  {| self := o; console := console w; wire := wire w; now := later |}.

(** ** The per-method handling of a failed transport call *)

Inductive FailurePolicy : Type :=
| Swallows (label : string) (returned : Value)
| LogsAndRethrows (label : string)
| Propagates.

(** What a caller observes when the transport call of a method fails: the
    value returned in place of the result together with the label of the
    logged message, or the failure itself, with or without a logged message.
    The table is proved against the method bodies below. *)
Definition on_failure (r : Request) : FailurePolicy :=
  match r with
  | GetBestBlockHash => Swallows "Error getting best block hash: " VNull
  | GetBlockBatch _ => Swallows "Error getting block batch: " VNull
  | GetBestBlockHeader _ => Swallows "Error getting best block header: " VNull
  | GetDeploymentInfo _ => Swallows "Error getting deployment info: " VNull
  | GetMempoolEntryById _ =>
      Swallows "Error getting mempool entry by id: " VNull
  | Generate _ _ _ => Swallows "Error generating blocks: " VNull
  | GenerateBlock _ _ _ => Swallows "Error generating block: " VNull
  | AddPeerAddress _ _ _ => Swallows "Error adding peer address: " VNull
  | GetNodeAddresses _ => Swallows "Error getting node addresses: " VNull
  | SendMsgToPeer _ _ _ => LogsAndRethrows "Error sending message to peer: "
  | SubmitPackage _ _ _ => Swallows "Error submitting package: " VNull
  | GetIndexInfo _ => Swallows "Error getting index info: " VNull
  | VerifyChainLock _ _ _ => Swallows "Error verifying chainlock: " VNull
  | CreateWalletDescriptor _ _ _ _ =>
      Swallows "Error creating wallet descriptor: " VNull
  | GetHDKeys _ _ _ => Swallows "Error getting HD keys: " VNull
  | ImportDescriptors _ _ => Swallows "Error importing descriptors: " VNull
  | ListDescriptors _ _ => Swallows "Error listing descriptors: " VNull
  | MigrateWallet _ _ => Swallows "Error migrating wallet: " VNull
  | NewKeypool _ => LogsAndRethrows "Error creating new keypool: "
  | PsbtBumpFee _ _ _ => Swallows "Error bumping fee with PSBT: " VNull
  | Send _ _ _ => Swallows "Error sending transaction: " VNull
  | SendAll _ _ _ => Swallows "Error sending all: " VNull
  | SimulateRawTransaction _ _ _ =>
      Swallows "Error simulating transaction: " VNull
  | UpgradeWallet _ _ => Swallows "Error upgrading wallet: " VNull
  | GetBlockAsHexString _ => Swallows "Error getting block data: " VNull
  | EstimateSmartFee _ _ => Propagates
  | JoinPSBTs _ => Swallows "Error joining PSBTs: " VNull
  | GetBlockInfoOnly _ => Swallows "Error getting block data: " VNull
  | GetBlockInfoWithTransactionData _ =>
      Swallows "Error getting block data: " VNull
  | GetBlockHashes _ _ => Swallows "Error getting block hashes: " (VArr [])
  | GetBlocksInfoWithTransactionData _ =>
      Swallows "Error getting block data: " VNull
  | GetBlockCount => Swallows "Error getting block count: " (VNum 0)
  | GetBlockFilter _ _ => Swallows "Error getting block filter: " VNull
  | GetBlockHash _ => Swallows "Error getting block hash: " VNull
  | GetChainInfo => Propagates
  | GetWalletInfo _ => Swallows "Error getting wallet info: " VNull
  | CreateWallet _ => Swallows "Error creating wallet: " VNull
  | LoadWallet _ => Swallows "Error loading wallet: " VNull
  | ListWallets => Swallows "Error listing wallets: " (VArr [])
  | GetNewAddress _ _ => Swallows "Error getting new address: " VNull
  | GenerateToAddress _ _ _ =>
      Swallows "Error generating to address: " (VArr [])
  | ImportPrivateKey _ _ _ _ =>
      Swallows "Error importing private key: " VUndefined
  | InvalidateBlock _ => LogsAndRethrows "Error invalidating block: "
  | ReconsiderBlock _ => LogsAndRethrows "Error reconsidering block: "
  | GetAddressByLabel _ _ =>
      LogsAndRethrows "Error getting address by label: "
  | SendRawTransaction _ => Propagates
  | DecodeRawTransaction _ _ =>
      Swallows "Error decoding raw transaction: " VNull
  | DumpPrivateKey _ _ => Swallows "Error dumping private key: " VNull
  | GetRawTransaction _ => Swallows "Error getting raw transaction: " VNull
  | GetRawTransactions _ _ =>
      Swallows "Error getting raw transactions: " VNull
  | GetBlockHeight => Propagates
  | GetBlockHeader _ _ => Swallows "Error getting block header: " VNull
  | GetBlockStatsByHeight _ _ => Swallows "Error getting block stats: " VNull
  | GetBlockStatsByHash _ _ => Swallows "Error getting block stats: " VNull
  | GetChainTips => Swallows "Error getting chain tips: " VNull
  | GetChainTxStats _ => Swallows "Error getting chain tx stats: " VNull
  | GetDifficulty => Swallows "Error getting difficulty: " (VNum 0)
  | GetMempoolAncestors _ _ =>
      Swallows "Error getting mempool ancestors: " VNull
  | GetMempoolDescendants _ _ =>
      Swallows "Error getting mempool descendants: " VNull
  | GetMempoolEntry _ => Swallows "Error getting mempool entry: " VNull
  | GetMempoolInfo => Swallows "Error getting mempool info: " VNull
  | GetRawMempool _ => Swallows "Error getting raw mempool: " VNull
  | GetTxOut _ _ _ => Swallows "Error getting tx out: " VNull
  | GetTxOutProof _ _ => Swallows "Error getting tx out proof: " VNull
  | GetTxOutSetInfo => Swallows "Error getting tx out set info: " VNull
  | PreciousBlock _ => Swallows "Error precious block: " VUndefined
  | PruneBlockChain _ => Swallows "Error pruning blockchain: " (VNum 0)
  | SaveMempool => Swallows "Error saving mempool: " VUndefined
  | VerifyChain _ _ => Swallows "Error verifying chain: " (VBool false)
  | VerifyTxOutProof _ => Swallows "Error verifying tx out proof: " (VArr [])
  end.

(** ** Histories of a running client *)

(** What can happen to a client between its construction and a call of
    [destroy]: a method is invoked, [init] is invoked, or time passes. *)
Inductive Event : Type :=
| Invoke (r : Request)
| Initialize (rpcInfo : RPCConfig)
| Wait (dt : Z).

Section Histories.

Variable node : Transport.
Variable verbosityCode : BitcoinVerbosity -> Value.
Variable FeeEstimation_CONSERVATIVE : Value.

(** The state after one event, and whether the process is still alive. *)
Definition step (ev : Event) (w : World) : bool * World :=
  match ev with
  | Invoke r =>
      match exec node verbosityCode FeeEstimation_CONSERVATIVE r w with
      | (Exited _, w') => (false, w')
      | (_, w') => (true, w')
      end
  | Initialize rpcInfo =>
      match init node rpcInfo w with
      | (Exited _, w') => (false, w')
      | (_, w') => (true, w')
      end
  | Wait dt => (true, elapse dt w)
  end.

(** Nothing happens any more once the process has exited. *)
Fixpoint play (history : list Event) (w : World) : World :=
  match history with
  | [] => w
  | ev :: rest =>
      match step ev w with
      | (true, w') => play rest w'
      | (false, w') => w'
      end
  end.

End Histories.

(** ** Sample transports and enum codes for the closed examples *)

Definition unreachable_node (reason : Value) : Transport :=
  fun _ _ _ _ => Reject reason.

Definition answering_node (result : Value) : Transport :=
  fun _ _ _ _ => Resolve result.

Definition sample_verbosityCode (v : BitcoinVerbosity) : Value :=
  match v with
  | NONE => VNum 0
  | RAW => VNum 1
  end.

Definition sample_CONSERVATIVE : Value := VStr "CONSERVATIVE".

Definition sample_config : RPCConfig :=
  {| BITCOIND_HOST := "127.0.0.1"; BITCOIND_PORT := 8332;
     BITCOIND_USERNAME := "user"; BITCOIND_PASSWORD := "secret" |}.

Definition sample_client : RPCClient :=
  {| options := {| url := "http://127.0.0.1"; port := 8332;
                   user := "user"; pass := "secret" |} |}.

Definition sample_chain_info : Value :=
  VObj [("chain", VStr "regtest"); ("blocks", VNum 101);
        ("bestblockhash", VStr "5f2a")].

Definition connection_refused : Value := VError "connect ECONNREFUSED".

(** A client built with the default arguments, at time 0. *)
Definition fresh_client : World := new_BitcoinRPC None None 0.

(** The same client after [init] against a node that refuses connections,
    without and with debug logging. *)
Definition offline_client : World :=
  snd (init (unreachable_node connection_refused) sample_config fresh_client).

Definition verbose_offline_client : World :=
  snd (init (unreachable_node connection_refused) sample_config
            (new_BitcoinRPC None (Some true) 0)).

(** A client destroyed and initialized again against a node that answers. *)
Definition reinitialized_client : World :=
  snd (init (answering_node sample_chain_info) sample_config
            (snd (destroy fresh_client))).

Definition empty_hash_request : BitcoinRawTransactionParams :=
  {| txId := "9b0f"; blockHash_param := Some ""; verbose_param := None |}.

(** ** Vocabulary of the properties *)

Definition is_error_entry (entry : Level * list string) : bool :=
  match fst entry with
  | LevelError => true
  | LevelLog => false
  end.

(** The entries written to the console between two states of the program,
    and the error-level ones among them. *)
Definition logged_since (before after : World) : list (Level * list string) :=
  skipn (length (console before)) (console after).

Definition errors_logged (before after : World) : list (Level * list string) :=
  filter is_error_entry (logged_since before after).

(** The values a method returns in place of a result it could not get:
    null, undefined, [false], [0] and the empty array. *)
Definition is_sentinel (v : Value) : bool :=
  match v with
  | VUndefined | VNull => true
  | VBool b => negb b
  | VNum n => n =? 0
  | VArr items => match items with [] => true | _ :: _ => false end
  | _ => false
  end.

(** The error entry a handler writes for the failure [e], if it has a label
    and the client logs at all. *)
Definition failure_entries (debug : bool) (label : option string) (e : Value)
  : list (Level * list string) :=
  match debug, label with
  | true, Some l => [(LevelError, [l ++ to_string e])]
  | _, _ => []
  end.

Definition failure_label (p : FailurePolicy) : option string :=
  match p with
  | Swallows label _ => Some label
  | LogsAndRethrows label => Some label
  | Propagates => None
  end.

(** [v.name] where [v] is known not to be undefined or null. *)
Definition property (v : Value) (name : string) : Value :=
  match member v name with
  | inl x => x
  | inr _ => VUndefined
  end.

(** The pair [getChainInfo] derives from a snapshot. *)
Definition derived_block_info (snapshot : Value) : BasicBlockInfo :=
  {| blockHeight := property snapshot "blocks";
     blockHash := property snapshot "bestblockhash" |}.

(** The purge timer set by the constructor is still in force. *)
Definition timer_running (w : World) : Prop :=
  exists t : Timeout,
    purgeInterval (self w) = Some t
    /\ cleared t = false
    /\ 1 <= delay t
    /\ due t <= now w + delay t.

Definition timer_period (w : World) : Z :=
  match purgeInterval (self w) with
  | Some t => delay t
  | None => 0
  end.

Definition cache_empty (w : World) : Prop :=
  blockchainInfo (self w) = VNull /\ currentBlockInfo (self w) = None.

(** The methods that return a string and replace a failure by null. *)
Definition returns_string_or_null (r : Request) : bool :=
  match r with
  | GetBestBlockHash | GetBlockAsHexString _ | GetBlockHash _
  | GetNewAddress _ _ | DumpPrivateKey _ _ | GetTxOutProof _ _
  | JoinPSBTs _ => true
  | _ => false
  end.

(** *** The claims as the specification words them, where the code differs *)

(** "either logs the error and returns a null or empty sentinel value, or
    rethrows the failure" *)
Definition logs_and_returns_sentinel_or_rethrows
  (before : World) (result : Outcome Value * World) (e : Value) : Prop :=
  (errors_logged before (snd result) <> []
   /\ exists v, fst result = Returned v /\ is_sentinel v = true)
  \/ fst result = Thrown e.

(** "whenever the underlying transport call fails, the client logs an error
    message" *)
Definition logs_an_error (before : World) (result : Outcome Value * World)
  : Prop :=
  errors_logged before (snd result) <> [].

(** "a cached snapshot never outlives one timer period" *)
Definition snapshot_expires (w : World) : Prop :=
  forall dt : Z, cacheClearInterval (self w) <= dt -> cache_empty (elapse dt w).

(** "includes the blockhash field exactly when a blockHash was supplied" *)
Definition claimed_getRawTransaction_params
  (parameters : BitcoinRawTransactionParams) : list (string * Value) :=
  [("txid", VStr (txId parameters));
   ("verbose", VBool (not_RAW (verbose_param parameters)))]
  ++ match blockHash_param parameters with
     | Some h => [("blockhash", VStr h)]
     | None => []
     end.

(** "the error is caught and logged and init resolves normally (leaving the
    transport handle set)" *)
Definition connectivity_failure_logged_and_resolved
  (before : World) (result : Outcome unit * World) : Prop :=
  fst result = Returned tt
  /\ rpc (self (snd result)) <> None
  /\ errors_logged before (snd result) <> [].

(** ** Further vocabulary: the answered call, the cache and the timer *)

(** The remote procedure each method forwards to. *)
Definition remote_procedure (r : Request) : string :=
  match r with
  | GetBestBlockHash => "getbestblockhash"
  | GetBlockBatch _ => "getblockBatch"
  | GetBestBlockHeader _ => "getbestblockheader"
  | GetDeploymentInfo _ => "getdeploymentinfo"
  | GetMempoolEntryById _ => "getmempoolentrybyid"
  | Generate _ _ _ => "generate"
  | GenerateBlock _ _ _ => "generateblock"
  | AddPeerAddress _ _ _ => "addpeeraddress"
  | GetNodeAddresses _ => "getnodeaddresses"
  | SendMsgToPeer _ _ _ => "sendmsgtopeer"
  | SubmitPackage _ _ _ => "submitpackage"
  | GetIndexInfo _ => "getindexinfo"
  | VerifyChainLock _ _ _ => "verifychainlock"
  | CreateWalletDescriptor _ _ _ _ => "createwalletdescriptor"
  | GetHDKeys _ _ _ => "gethdkeys"
  | ImportDescriptors _ _ => "importdescriptors"
  | ListDescriptors _ _ => "listdescriptors"
  | MigrateWallet _ _ => "migratewallet"
  | NewKeypool _ => "newkeypool"
  | PsbtBumpFee _ _ _ => "psbtbumpfee"
  | Send _ _ _ => "send"
  | SendAll _ _ _ => "sendall"
  | SimulateRawTransaction _ _ _ => "simulaterawtransaction"
  | UpgradeWallet _ _ => "upgradewallet"
  | GetBlockAsHexString _ => "getblock"
  | EstimateSmartFee _ _ => "estimatesmartfee"
  | JoinPSBTs _ => "joinpsbts"
  | GetBlockInfoOnly _ => "getblock"
  | GetBlockInfoWithTransactionData _ => "getblock"
  | GetBlockHashes _ _ => "getblockhashes"
  | GetBlocksInfoWithTransactionData _ => "getblockBatch"
  | GetBlockCount => "getblockcount"
  | GetBlockFilter _ _ => "getblockfilter"
  | GetBlockHash _ => "getblockhash"
  | GetChainInfo => "getblockchaininfo"
  | GetWalletInfo _ => "getwalletinfo"
  | CreateWallet _ => "createwallet"
  | LoadWallet _ => "loadwallet"
  | ListWallets => "listwallets"
  | GetNewAddress _ _ => "getnewaddress"
  | GenerateToAddress _ _ _ => "generatetoaddress"
  | ImportPrivateKey _ _ _ _ => "importprivkey"
  | InvalidateBlock _ => "invalidateblock"
  | ReconsiderBlock _ => "reconsiderblock"
  | GetAddressByLabel _ _ => "getaddressesbylabel"
  | SendRawTransaction _ => "sendrawtransaction"
  | DecodeRawTransaction _ _ => "decoderawtransaction"
  | DumpPrivateKey _ _ => "dumpprivkey"
  | GetRawTransaction _ => "getrawtransaction"
  | GetRawTransactions _ _ => "getrawtransactionBatch"
  | GetBlockHeight => "getblockchaininfo"
  | GetBlockHeader _ _ => "getblockheader"
  | GetBlockStatsByHeight _ _ => "getblockstats"
  | GetBlockStatsByHash _ _ => "getblockstats"
  | GetChainTips => "getchaintips"
  | GetChainTxStats _ => "getchaintxstats"
  | GetDifficulty => "getdifficulty"
  | GetMempoolAncestors _ _ => "getmempoolancestors"
  | GetMempoolDescendants _ _ => "getmempooldescendants"
  | GetMempoolEntry _ => "getmempoolentry"
  | GetMempoolInfo => "getmempoolinfo"
  | GetRawMempool _ => "getrawmempool"
  | GetTxOut _ _ _ => "gettxout"
  | GetTxOutProof _ _ => "gettxoutproof"
  | GetTxOutSetInfo => "gettxoutsetinfo"
  | PreciousBlock _ => "preciousblock"
  | PruneBlockChain _ => "pruneblockchain"
  | SaveMempool => "savemempool"
  | VerifyChain _ _ => "verifychain"
  | VerifyTxOutProof _ => "verifytxoutproof"
  end.

(** What a method makes of the answer of the transport: it returns the
    answer as it is, replaces a falsy answer by null ([|| null]), replaces
    only undefined and null by null ([?? null]), returns nothing, compares
    the answer with [''], or returns the cached block info instead. *)
Inductive ResultShape : Type :=
| Verbatim
| OrNull
| UnlessNullish
| NoResult
| HexString
| BlockInfo.

Definition result_shape (r : Request) : ResultShape :=
  match r with
  | GetBestBlockHeader _ | GetDeploymentInfo _ | GetMempoolEntryById _
  | Generate _ _ _ | GenerateBlock _ _ _ | AddPeerAddress _ _ _
  | GetNodeAddresses _ | SubmitPackage _ _ _ | GetIndexInfo _
  | VerifyChainLock _ _ _ | CreateWalletDescriptor _ _ _ _ | GetHDKeys _ _ _
  | ImportDescriptors _ _ | ListDescriptors _ _ | MigrateWallet _ _
  | PsbtBumpFee _ _ _ | Send _ _ _ | SendAll _ _ _
  | SimulateRawTransaction _ _ _ | UpgradeWallet _ _
  | EstimateSmartFee _ _ | GetChainInfo => Verbatim
  | SendMsgToPeer _ _ _ | NewKeypool _ | ImportPrivateKey _ _ _ _
  | InvalidateBlock _ | ReconsiderBlock _ | PreciousBlock _
  | SaveMempool => NoResult
  | GetBlockCount | GetDifficulty | PruneBlockChain _
  | VerifyChain _ _ => UnlessNullish
  | GetBlockAsHexString _ => HexString
  | GetBlockHeight => BlockInfo
  | _ => OrNull
  end.

Definition normalised (shape : ResultShape) (answer : Value) : option Value :=
  match shape with
  | Verbatim => Some answer
  | OrNull => Some (answer ||| VNull)
  | UnlessNullish => Some (answer ??? VNull)
  | NoResult => Some VUndefined
  | HexString => Some (if loose_eq_empty answer then VNull else answer)
  | BlockInfo => None
  end.

(** The methods whose handler replaces a failure by a value the node can
    answer with as well, and that value. *)
Definition fallback_answer (r : Request) : option Value :=
  match r with
  | GetBlockCount | GetDifficulty | PruneBlockChain _ => Some (VNum 0)
  | VerifyChain _ _ => Some (VBool false)
  | GetBlockHashes _ _ | ListWallets | GenerateToAddress _ _ _
  | VerifyTxOutProof _ => Some (VArr [])
  | _ => None
  end.

(** The cached block info is the one derived from the cached snapshot,
    whenever a snapshot is cached. *)
Definition cache_consistent (w : World) : Prop :=
  truthy (blockchainInfo (self w)) = true ->
  currentBlockInfo (self w)
  = Some (derived_block_info (blockchainInfo (self w))).

(** No purge timer is set, or it was cleared. *)
Definition timer_stopped (w : World) : Prop :=
  match purgeInterval (self w) with
  | Some t => cleared t = true
  | None => True
  end.

(** The client once [getChainInfo] was answered with [answer]. *)
Definition after_chain_info (answer : Value) (o : BitcoinRPC) : BitcoinRPC :=
  if truthy answer
  then with_currentBlockInfo (Some (derived_block_info answer))
         (with_blockchainInfo answer o)
  else with_blockchainInfo answer o.

(** The instant at which the purge timer fires next. *)
Definition next_purge (w : World) : Z :=
  match purgeInterval (self w) with
  | Some t => due t
  | None => 0
  end.

(** The purge timer runs on the schedule that began at [start]: it is in
    force, its period is the one [setInterval] gives the client's
    [cacheClearInterval], and its next firing lies ahead, a whole number of
    periods after [start]. *)
Definition timer_on_schedule (start : Z) (w : World) : Prop :=
  timer_running w
  /\ timer_period w = delay (setInterval (cacheClearInterval (self w)) start)
  /\ now w < next_purge w
  /\ exists k : Z, 1 <= k /\ next_purge w = start + k * timer_period w.

(** A client initialized against a node that answers, debug logging off. *)
Definition online_client : World :=
  snd (init (answering_node sample_chain_info) sample_config fresh_client).

(** * Properties *)

(** ** The embedding on small inputs *)

Example to_string_of_array :
  to_string (VArr [VStr "a"; VNull; VNum 3; VBool false]) = "a,,3,false".
Proof. reflexivity. Qed.

Example to_string_of_error :
  to_string connection_refused = "Error: connect ECONNREFUSED".
Proof. reflexivity. Qed.

Example empty_array_loosely_equals_empty_string :
  loose_eq_empty (VArr []) = true /\ loose_eq_empty VNull = false.
Proof. split; reflexivity. Qed.

Example getBlockCount_when_offline :
  fst (exec (unreachable_node connection_refused) sample_verbosityCode
            sample_CONSERVATIVE GetBlockCount offline_client)
  = Returned (VNum 0).
Proof. reflexivity. Qed.

Example getDeploymentInfo_on_the_wire :
  wire (snd (exec (answering_node VNull) sample_verbosityCode
                  sample_CONSERVATIVE (GetDeploymentInfo None) fresh_client))
  = []
  /\ map (fun sent => (procedure sent, arguments sent))
         (wire (snd (exec (answering_node VNull) sample_verbosityCode
                          sample_CONSERVATIVE (GetDeploymentInfo (Some "5f2a"))
                          offline_client)))
     = [("getblockchaininfo", []);
        ("getdeploymentinfo", [VObj [("blockhash", VStr "5f2a")]])].
Proof. split; reflexivity. Qed.

Example debug_console_of_a_failed_call :
  console (snd (exec (unreachable_node connection_refused)
                     sample_verbosityCode sample_CONSERVATIVE
                     (GetNodeAddresses None)
                     (snd (init (answering_node sample_chain_info)
                                sample_config
                                (new_BitcoinRPC None (Some true) 0)))))
  = [(LevelLog, ["getChainInfo"]);
     (LevelLog, ["getNodeAddresses default"]);
     (LevelError,
      ["Error getting node addresses: Error: connect ECONNREFUSED"])].
Proof. reflexivity. Qed.

Example purge_after_one_second :
  currentBlockInfo (self reinitialized_client) <> None
  /\ cache_empty
       (elapse 1000
          (snd (init (answering_node sample_chain_info) sample_config
                     fresh_client))).
Proof. split; [discriminate | split; reflexivity]. Qed.

(** ** Auxiliary facts *)

Lemma skipn_length_app :
  forall (A : Type) (l l' : list A), skipn (length l) (l ++ l') = l'.
Proof.
  intros A l l'. induction l as [| x l IH]; simpl; [reflexivity | exact IH].
Qed.

Lemma skipn_length_same :
  forall (A : Type) (l : list A), skipn (length l) l = [].
Proof.
  intros A l. induction l as [| x l IH]; simpl; [reflexivity | exact IH].
Qed.

(** Evaluation of a method body, leaving strings, arithmetic and the
    console untouched. *)
Ltac evaluate :=
  cbv - [append app to_string string_of_Z length skipn filter
         Z.add Z.mul Z.sub Z.div Z.max Z.leb Z.ltb Z.eqb String.eqb
         Nat.iter Z.to_nat].

Ltac evaluate_in H :=
  cbv - [append app to_string string_of_Z length skipn filter
         Z.add Z.mul Z.sub Z.div Z.max Z.leb Z.ltb Z.eqb String.eqb
         Nat.iter Z.to_nat] in H.

Ltac tidy_console :=
  rewrite <- ?app_assoc, ?skipn_length_app, ?skipn_length_same.

(** Case analysis on whatever blocks the evaluation of a goal. *)
Ltac recall_cases :=
  repeat match goal with
         | H : Z.eqb _ _ = _ |- _ => rewrite H
         | H : String.eqb _ _ = _ |- _ => rewrite H
         end.

Ltac split_cases node :=
  evaluate;
  repeat (match goal with
          | |- context [node ?n ?h ?p ?a] => destruct (node n h p a)
          | |- context [match ?x with _ => _ end] => is_var x; destruct x
          | |- context [Z.eqb ?n ?m] => destruct (Z.eqb n m) eqn:?
          | |- context [String.eqb ?s ?t] => destruct (String.eqb s t) eqn:?
          end; evaluate; recall_cases; evaluate).

Section Properties.

Variable node : Transport.
Variable verbosityCode : BitcoinVerbosity -> Value.
Variable FeeEstimation_CONSERVATIVE : Value.

Local Abbreviation run := (exec node verbosityCode FeeEstimation_CONSERVATIVE).
Local Abbreviation advance :=
  (step node verbosityCode FeeEstimation_CONSERVATIVE).
Local Abbreviation replay :=
  (play node verbosityCode FeeEstimation_CONSERVATIVE).

(** *** The table of failure handling agrees with the method bodies *)

Lemma failure_table :
  forall (r : Request) (w : World) (c : RPCClient) (e : Value),
    rpc (self w) = Some c ->
    (forall h p a, node (length (wire w)) h p a = Reject e) ->
    wire (snd (run r w)) <> wire w ->
    fst (run r w)
    = match on_failure r with
      | Swallows _ v => Returned v
      | _ => Thrown e
      end
    /\ errors_logged w (snd (run r w))
       = failure_entries (enableDebug (self w))
           (failure_label (on_failure r)) e.
Proof.
  intros r [[handle info current timer period debug] out sent clock] c e
    Hrpc Hfail Hcall.
  simpl in Hrpc, Hfail. subst handle.
  destruct r; destruct debug; revert Hcall; evaluate; rewrite ?Hfail;
    evaluate; tidy_console; try (intros _; split; reflexivity).
  all: destruct current; evaluate; rewrite ?Hfail; evaluate; tidy_console;
    intros Hcall; try (exfalso; apply Hcall; reflexivity);
    split; reflexivity.
Qed.

Lemma sentinels_of_table :
  forall (r : Request) (label : string) (v : Value),
    on_failure r = Swallows label v -> is_sentinel v = true.
Proof.
  intros r label v H. destruct r; simpl in H; inversion H; reflexivity.
Qed.

(** *** The timer is touched by the constructor and [destroy] only *)

Lemma getChainInfo_keeps_timer :
  forall w : World,
    purgeInterval (self (snd (getChainInfo node w))) = purgeInterval (self w)
    /\ now (snd (getChainInfo node w)) = now w.
Proof.
  intros [[handle info current timer period debug] out sent clock].
  destruct debug, handle; split_cases node; split; reflexivity.
Qed.

Lemma exec_keeps_timer :
  forall (r : Request) (w : World),
    purgeInterval (self (snd (run r w))) = purgeInterval (self w)
    /\ now (snd (run r w)) = now w.
Proof.
  intros r [[handle info current timer period debug] out sent clock].
  destruct r; destruct debug, handle; split_cases node; split; reflexivity.
Qed.

Lemma init_keeps_timer :
  forall (rpcInfo : RPCConfig) (w : World),
    purgeInterval (self (snd (init node rpcInfo w))) = purgeInterval (self w)
    /\ now (snd (init node rpcInfo w)) = now w.
Proof.
  intros rpcInfo [[handle info current timer period debug] out sent clock].
  destruct debug, handle; split_cases node; split; reflexivity.
Qed.

Lemma timer_running_transfer :
  forall w w' : World,
    purgeInterval (self w') = purgeInterval (self w) ->
    now w' = now w ->
    timer_running w -> timer_running w'.
Proof.
  intros w w' Ht Hn (t & H1 & H2 & H3 & H4).
  exists t. rewrite Ht, Hn. auto.
Qed.

Lemma elapse_keeps_timer :
  forall (dt : Z) (w : World),
    timer_running w ->
    timer_running (elapse dt w) /\ timer_period (elapse dt w) = timer_period w.
Proof.
  intros dt w (t & Ht & Hc & Hd & Hdue).
  unfold timer_running, timer_period, elapse. simpl. rewrite Ht. simpl.
  split; [| reflexivity].
  eexists. split; [reflexivity |]. simpl.
  repeat split; try assumption.
  unfold firings. rewrite Hc. simpl.
  destruct (now w + Z.max 0 dt <? due t) eqn:Hlt.
  - apply Z.ltb_lt in Hlt. lia.
  - apply Z.ltb_ge in Hlt.
    pose proof (Z.mul_div_le (now w + Z.max 0 dt - due t) (delay t)) as Hm.
    nia.
Qed.

Lemma iter_purge_callback :
  forall (n : nat) (o : BitcoinRPC),
    blockchainInfo (Nat.iter (S n) purge_callback o) = VNull
    /\ currentBlockInfo (Nat.iter (S n) purge_callback o) = None.
Proof.
  intros n o. simpl. split; reflexivity.
Qed.

Lemma elapse_purges :
  forall (dt : Z) (w : World),
    timer_running w -> timer_period w <= dt -> cache_empty (elapse dt w).
Proof.
  intros dt w (t & Ht & Hc & Hd & Hdue) Hdt.
  unfold timer_period in Hdt. rewrite Ht in Hdt.
  unfold cache_empty, elapse. simpl. rewrite Ht.
  assert (Hk : 1 <= firings t (now w + Z.max 0 dt)).
  { unfold firings. rewrite Hc. simpl.
    destruct (now w + Z.max 0 dt <? due t) eqn:Hlt.
    - apply Z.ltb_lt in Hlt. lia.
    - apply Z.ltb_ge in Hlt.
      assert (0 <= (now w + Z.max 0 dt - due t) / delay t)
        by (apply Z.div_pos; lia).
      lia. }
  destruct (Z.to_nat (firings t (now w + Z.max 0 dt))) as [| n] eqn:Hn;
    [lia |].
  destruct (iter_purge_callback n (self w)) as [H1 H2].
  split; simpl; assumption.
Qed.

Lemma step_keeps_timer :
  forall (ev : Event) (w : World),
    timer_running w ->
    timer_running (snd (advance ev w))
    /\ timer_period (snd (advance ev w))
       = timer_period w.
Proof.
  intros ev w Hw. destruct ev as [r | rpcInfo | dt]; simpl.
  - destruct (exec_keeps_timer r w) as [Ht Hn].
    destruct (run r w) as [[a | e | code] w'] eqn:E; simpl in *;
      (split; [eapply timer_running_transfer; eassumption
              | unfold timer_period; rewrite Ht; reflexivity]).
  - destruct (init_keeps_timer rpcInfo w) as [Ht Hn].
    destruct (init node rpcInfo w) as [[a | e | code] w'] eqn:E; simpl in *;
      (split; [eapply timer_running_transfer; eassumption
              | unfold timer_period; rewrite Ht; reflexivity]).
  - apply elapse_keeps_timer. assumption.
Qed.

Lemma play_keeps_timer :
  forall (history : list Event) (w : World),
    timer_running w ->
    timer_running (replay history w)
    /\ timer_period (replay history w)
       = timer_period w.
Proof.
  induction history as [| ev rest IH]; intros w Hw; simpl.
  - split; [assumption | reflexivity].
  - destruct (step_keeps_timer ev w Hw) as [Hrun Hper].
    destruct (advance ev w)
      as [[|] w'] eqn:E; simpl in *.
    + destruct (IH w' Hrun) as [H1 H2]. split; [assumption | congruence].
    + split; assumption.
Qed.

Lemma setInterval_delay :
  forall requested clock : Z,
    1 <= delay (setInterval requested clock)
    /\ (1 <= requested <= TIMEOUT_MAX ->
        delay (setInterval requested clock) = requested).
Proof.
  intros requested clock. unfold setInterval. simpl.
  destruct (1 <=? requested) eqn:Hlo;
    destruct (requested <=? TIMEOUT_MAX) eqn:Hhi; simpl;
    try apply Z.leb_le in Hlo; try apply Z.leb_gt in Hlo;
    try apply Z.leb_le in Hhi; try apply Z.leb_gt in Hhi;
    split; lia.
Qed.

Lemma new_BitcoinRPC_timer :
  forall (interval : option Z) (debug : option bool) (clock : Z),
    timer_running (new_BitcoinRPC interval debug clock)
    /\ timer_period (new_BitcoinRPC interval debug clock)
       = delay (setInterval (default 1000 interval) clock).
Proof.
  intros interval debug clock.
  unfold timer_running, timer_period, new_BitcoinRPC. simpl.
  split; [| reflexivity].
  eexists. split; [reflexivity |].
  destruct (setInterval_delay (default 1000 interval) clock) as [Hpos _].
  repeat split; [assumption |].
  unfold setInterval at 1. simpl. unfold setInterval. simpl. lia.
Qed.

Lemma getChainInfo_stores :
  forall (w : World) (c : RPCClient) (v : Value),
    rpc (self w) = Some c ->
    node (length (wire w)) c "getblockchaininfo" [] = Resolve v ->
    truthy v = true ->
    fst (getChainInfo node w) = Returned v
    /\ blockchainInfo (self (snd (getChainInfo node w))) = v
    /\ currentBlockInfo (self (snd (getChainInfo node w)))
       = Some (derived_block_info v).
Proof.
  intros [[handle info current timer period debug] out sent clock] c v
    Hrpc Hnode Hv.
  simpl in Hrpc, Hnode. subst handle.
  destruct v; try discriminate Hv; destruct debug; evaluate;
    rewrite Hnode; simpl in Hv; evaluate_in Hv;
    split_cases node; try discriminate Hv; repeat split.
Qed.

(** *** The claims *)

(** C1 (amended).  Whenever the transport call of an exposed RPC method
    fails, the method either returns one of the sentinel values (null,
    undefined for the methods without a result, an empty array, [0] or
    [false]) or throws the failure on to its caller; in the first case an
    error message is logged exactly when the client was constructed with
    [enableDebug] set. *)
Theorem failure_yields_sentinel_or_rethrow :
  forall (r : Request) (w : World) (c : RPCClient) (e : Value),
    rpc (self w) = Some c ->
    (forall h p a, node (length (wire w)) h p a = Reject e) ->
    wire (snd (run r w)) <> wire w ->
    (exists v : Value,
        fst (run r w) = Returned v
        /\ is_sentinel v = true
        /\ (errors_logged w (snd (run r w)) <> []
            <-> enableDebug (self w) = true))
    \/ fst (run r w) = Thrown e.
Proof.
  intros r w c e Hrpc Hfail Hcall.
  destruct (failure_table r w c e Hrpc Hfail Hcall) as [Hres Hlog].
  destruct (on_failure r) as [label v | label |] eqn:Hpolicy.
  - left. exists v. split; [exact Hres |].
    split; [exact (sentinels_of_table r label v Hpolicy) |].
    rewrite Hlog. simpl. destruct (enableDebug (self w)); simpl.
    + split; [reflexivity | discriminate].
    + split; [intros H; exfalso; apply H; reflexivity | discriminate].
  - right. exact Hres.
  - right. exact Hres.
Qed.

(** C2.  A method called on a client whose transport handle is not set
    throws [Error('RPC not initialized')], hands nothing to the transport
    and leaves the client as it was; the handle is not set after
    construction nor after [destroy]. *)
Theorem rpc_methods_require_initialization :
  forall (r : Request) (w : World),
    rpc (self w) = None ->
    fst (run r w) = Thrown (VError "RPC not initialized")
    /\ wire (snd (run r w)) = wire w
    /\ self (snd (run r w)) = self w
    /\ (forall interval debug clock,
           rpc (self (new_BitcoinRPC interval debug clock)) = None)
    /\ (forall w0 : World, rpc (self (snd (destroy w0))) = None).
Proof.
  intros r [[handle info current timer period debug] out sent clock] H.
  simpl in H. subst handle.
  assert (Hnew : forall interval debug clock,
             rpc (self (new_BitcoinRPC interval debug clock)) = None)
    by (intros; reflexivity).
  assert (Hdestroy : forall w0 : World, rpc (self (snd (destroy w0))) = None)
    by (intros [[h i cu [t |] p d] o s k]; reflexivity).
  destruct r; destruct debug; evaluate; repeat split;
    solve [apply Hnew | apply Hdestroy].
Qed.

(** C3.  [init] on a client that already holds a transport handle throws
    [Error('RPC already initialized')] and changes nothing; on a client
    without a handle it installs a transport client built from
    ['http://' + host], the port, the user name and the password. *)
Theorem init_only_once :
  forall (rpcInfo : RPCConfig) (w : World),
    match rpc (self w) with
    | Some _ =>
        init node rpcInfo w = (Thrown (VError "RPC already initialized"), w)
    | None =>
        rpc (self (snd (init node rpcInfo w)))
        = Some {| options :=
                    {| url := "http://" ++ BITCOIND_HOST rpcInfo;
                       port := BITCOIND_PORT rpcInfo;
                       user := BITCOIND_USERNAME rpcInfo;
                       pass := BITCOIND_PASSWORD rpcInfo |} |}
    end.
Proof.
  intros rpcInfo [[handle info current timer period debug] out sent clock].
  destruct handle as [c |]; simpl rpc; cbv iota beta.
  - reflexivity.
  - destruct debug; split_cases node; reflexivity.
Qed.

(** C5.  [getBlockHeight] returns the cached block info without a
    transport call when one is cached; otherwise it performs
    [getChainInfo] and returns the block info that call stored, null when
    it stored none. *)
Theorem getBlockHeight_uses_cache :
  forall (w : World) (c : RPCClient),
    rpc (self w) = Some c ->
    match currentBlockInfo (self w) with
    | Some cached =>
        fst (getBlockHeight node w)
        = Returned (BasicBlockInfo_value (Some cached))
        /\ wire (snd (getBlockHeight node w)) = wire w
        /\ self (snd (getBlockHeight node w)) = self w
    | None =>
        wire (snd (getBlockHeight node w))
        = (wire w ++ [{| via := c; procedure := "getblockchaininfo";
                         arguments := [] |}])%list
        /\ self (snd (getBlockHeight node w))
           = self (snd (getChainInfo node w))
        /\ fst (getBlockHeight node w)
           = match node (length (wire w)) c "getblockchaininfo" [] with
             | Resolve v =>
                 Returned
                   (if truthy v
                    then BasicBlockInfo_value (Some (derived_block_info v))
                    else VNull)
             | Reject e => Thrown e
             end
    end.
Proof.
  intros [[handle info current timer period debug] out sent clock] c Hrpc.
  simpl in Hrpc. subst handle.
  destruct current as [cached |]; destruct debug; split_cases node;
    repeat split.
Qed.

(** C6.  [sendRawTransaction] throws a failure of the transport on to its
    caller; when the transport answers, it returns the transaction id, and
    null in place of an empty answer. *)
Theorem sendRawTransaction_propagates :
  forall (params : Value) (w : World) (c : RPCClient),
    rpc (self w) = Some c ->
    match node (length (wire w)) c "sendrawtransaction" [params] with
    | Reject e => fst (sendRawTransaction node params w) = Thrown e
    | Resolve (VStr txid) =>
        fst (sendRawTransaction node params w)
        = Returned (if (txid =? "")%string then VNull else VStr txid)
    | Resolve VNull | Resolve VUndefined =>
        fst (sendRawTransaction node params w) = Returned VNull
    | Resolve v =>
        fst (sendRawTransaction node params w) = Returned (v ||| VNull)
    end.
Proof.
  intros params [[handle info current timer period debug] out sent clock] c
    Hrpc.
  simpl in Hrpc. subst handle.
  destruct debug; split_cases node; reflexivity.
Qed.

(** C7 (amended).  When the transport call of a method fails, the client
    logs one error message, the label of the method followed by the
    failure, provided it was constructed with [enableDebug] set and the
    method is not [estimateSmartFee], [getChainInfo], [getBlockHeight] or
    [sendRawTransaction]; otherwise it logs no error. *)
Theorem failure_logging :
  forall (r : Request) (w : World) (c : RPCClient) (e : Value),
    rpc (self w) = Some c ->
    (forall h p a, node (length (wire w)) h p a = Reject e) ->
    wire (snd (run r w)) <> wire w ->
    errors_logged w (snd (run r w))
    = failure_entries (enableDebug (self w)) (failure_label (on_failure r)) e
    /\ (failure_label (on_failure r) = None
        <-> match r with
            | EstimateSmartFee _ _ | GetChainInfo | GetBlockHeight
            | SendRawTransaction _ => True
            | _ => False
            end).
Proof.
  intros r w c e Hrpc Hfail Hcall.
  split; [exact (proj2 (failure_table r w c e Hrpc Hfail Hcall)) |].
  destruct r; simpl; split; intros H; try discriminate H;
    solve [exact I | reflexivity | contradiction].
Qed.

(** C8 (amended).  The object [getRawTransaction] hands to the transport
    is [{txid, verbose}], with [verbose] true exactly when the requested
    verbosity is not RAW, followed by [blockhash] exactly when a non-empty
    [blockHash] was supplied. *)
Theorem getRawTransaction_wire_params :
  forall (parameters : BitcoinRawTransactionParams) (w : World)
         (c : RPCClient),
    rpc (self w) = Some c ->
    wire (snd (getRawTransaction node parameters w))
    = (wire w
      ++ [{| via := c; procedure := "getrawtransaction";
             arguments :=
               [VObj
                  ([("txid", VStr (txId parameters));
                    ("verbose",
                     VBool match verbose_param parameters with
                           | Some RAW => false
                           | _ => true
                           end)]
                   ++ match blockHash_param parameters with
                      | Some h =>
                          if (h =? "")%string then []
                          else [("blockhash", VStr h)]
                      | None => []
                      end)] |}])%list.
Proof.
  intros [tx hash verbosity]
    [[handle info current timer period debug] out sent clock] c Hrpc.
  simpl in Hrpc. subst handle.
  destruct hash as [h |]; destruct verbosity as [[|] |]; destruct debug;
    split_cases node; reflexivity.
Qed.

(** C9.  For [getBestBlockHash], [getBlockAsHexString], [getBlockHash],
    [getNewAddress], [dumpPrivateKey], [getTxOutProof] and [joinPSBTs], a
    transport that answers with the empty string and a transport that
    fails lead to the same result, null, and to the same client state. *)
Theorem empty_answer_indistinguishable_from_failure :
  forall (answering failing : Transport) (r : Request) (w : World)
         (c : RPCClient) (e : Value),
    returns_string_or_null r = true ->
    rpc (self w) = Some c ->
    (forall h p a, answering (length (wire w)) h p a = Resolve (VStr "")) ->
    (forall h p a, failing (length (wire w)) h p a = Reject e) ->
    fst (exec answering verbosityCode FeeEstimation_CONSERVATIVE r w)
    = Returned VNull
    /\ fst (exec failing verbosityCode FeeEstimation_CONSERVATIVE r w)
       = Returned VNull
    /\ self (snd (exec answering verbosityCode FeeEstimation_CONSERVATIVE r w))
       = self (snd (exec failing verbosityCode FeeEstimation_CONSERVATIVE r w)).
Proof.
  intros answering failing r
    [[handle info current timer period debug] out sent clock] c e
    Hr Hrpc Hok Hko.
  simpl in Hrpc, Hok, Hko. subst handle.
  destruct r; try discriminate Hr; destruct debug; evaluate;
    rewrite ?Hok, ?Hko; evaluate; repeat split.
Qed.

(** C10 (amended).  [init] on a client without a handle installs the
    handle and performs [getChainInfo].  If that call fails with a reason
    other than undefined or null, [init] completes normally, and the
    message "RPC errored. Please check your configuration. " followed by
    the reason's [message] is logged when the client was constructed with
    [enableDebug] set.  If the call answers with null (or another falsy
    value), the process exits with code 1. *)
Theorem init_connectivity_check :
  forall (rpcInfo : RPCConfig) (w : World),
    rpc (self w) = None ->
    let c := {| options := getRpcConfigFromBlockchainConfig rpcInfo |} in
    rpc (self (snd (init node rpcInfo w))) = Some c
    /\ match node (length (wire w)) c "getblockchaininfo" [] with
       | Reject e =>
           nullish e = false ->
           fst (init node rpcInfo w) = Returned tt
           /\ errors_logged w (snd (init node rpcInfo w))
              = failure_entries (enableDebug (self w))
                  (Some "RPC errored. Please check your configuration. ")
                  (property e "message")
       | Resolve v =>
           if truthy v
           then fst (init node rpcInfo w) = Returned tt
                /\ errors_logged w (snd (init node rpcInfo w)) = []
           else fst (init node rpcInfo w) = Exited 1
                /\ errors_logged w (snd (init node rpcInfo w))
                   = if enableDebug (self w)
                     then [(LevelError,
                            ["RPC errored. Please check your configuration."])]
                     else []
       end.
Proof.
  intros rpcInfo [[handle info current timer period debug] out sent clock]
    Hrpc.
  simpl in Hrpc. subst handle.
  destruct debug; split_cases node; tidy_console;
    repeat split; try discriminate.
Qed.

End Properties.

(** * Closed instances *)

(** C1, as worded, fails: with the default [enableDebug = false],
    [getBestBlockHash] answers a failed call with null and logs nothing. *)
Lemma silent_swallow_counterexample :
  ~ logs_and_returns_sentinel_or_rethrows offline_client
      (exec (unreachable_node connection_refused) sample_verbosityCode
            sample_CONSERVATIVE GetBestBlockHash offline_client)
      connection_refused.
Proof.
  intros [[Hlogged _] | Hthrown].
  - apply Hlogged. reflexivity.
  - vm_compute in Hthrown. discriminate Hthrown.
Qed.

Lemma failure_yields_sentinel_or_rethrow_witness :
  (exists v : Value,
      fst (exec (unreachable_node connection_refused) sample_verbosityCode
                sample_CONSERVATIVE GetBlockCount verbose_offline_client)
      = Returned v
      /\ is_sentinel v = true
      /\ (errors_logged verbose_offline_client
            (snd (exec (unreachable_node connection_refused)
                       sample_verbosityCode sample_CONSERVATIVE
                       GetBlockCount verbose_offline_client)) <> []
          <-> enableDebug (self verbose_offline_client) = true))
  \/ fst (exec (unreachable_node connection_refused) sample_verbosityCode
               sample_CONSERVATIVE GetBlockCount verbose_offline_client)
     = Thrown connection_refused.
Proof.
  apply (failure_yields_sentinel_or_rethrow
           (unreachable_node connection_refused) sample_verbosityCode
           sample_CONSERVATIVE GetBlockCount verbose_offline_client
           sample_client connection_refused).
  - reflexivity.
  - intros h p a. reflexivity.
  - vm_compute. discriminate.
Defined.

Lemma rpc_methods_require_initialization_witness :
  fst (exec (answering_node sample_chain_info) sample_verbosityCode
            sample_CONSERVATIVE GetBestBlockHash fresh_client)
  = Thrown (VError "RPC not initialized")
  /\ wire (snd (exec (answering_node sample_chain_info) sample_verbosityCode
                     sample_CONSERVATIVE GetBestBlockHash fresh_client))
     = []
  /\ rpc (self (snd (destroy reinitialized_client))) = None.
Proof.
  destruct (rpc_methods_require_initialization
              (answering_node sample_chain_info) sample_verbosityCode
              sample_CONSERVATIVE GetBestBlockHash fresh_client eq_refl)
    as (Hthrown & Hwire & _ & _ & Hdestroy).
  split; [exact Hthrown |].
  split; [exact Hwire | apply Hdestroy].
Defined.

(** [destroy] clears the timer and [init] does not set a new one, so the
    snapshot cached by the second [init] is still there five periods
    later. *)
Lemma snapshot_outlives_period_counterexample :
  ~ snapshot_expires reinitialized_client.
Proof.
  intros H.
  assert (Hdt : cacheClearInterval (self reinitialized_client) <= 5000)
    by (vm_compute; discriminate).
  destruct (H 5000 Hdt) as [Hinfo _].
  vm_compute in Hinfo. discriminate Hinfo.
Qed.

Lemma getBlockHeight_uses_cache_witness :
  fst (getBlockHeight (unreachable_node connection_refused)
                      reinitialized_client)
  = Returned (VObj [("blockHeight", VNum 101); ("blockHash", VStr "5f2a")]).
Proof.
  exact (proj1 (getBlockHeight_uses_cache
                  (unreachable_node connection_refused)
                  reinitialized_client sample_client eq_refl)).
Defined.

Lemma sendRawTransaction_propagates_witness :
  fst (sendRawTransaction (unreachable_node connection_refused)
                          (VObj [("hexstring", VStr "0200")]) offline_client)
  = Thrown connection_refused.
Proof.
  exact (sendRawTransaction_propagates
           (unreachable_node connection_refused)
           (VObj [("hexstring", VStr "0200")]) offline_client sample_client
           eq_refl).
Defined.

(** C7, as worded, fails: [estimateSmartFee] has no handler, so even a
    client with debug logging enabled logs no error for its failed call. *)
Lemma unlogged_failure_counterexample :
  ~ logs_an_error verbose_offline_client
      (exec (unreachable_node connection_refused) sample_verbosityCode
            sample_CONSERVATIVE (EstimateSmartFee 6 None)
            verbose_offline_client).
Proof.
  intros H. apply H. reflexivity.
Qed.

Lemma failure_logging_witness :
  errors_logged verbose_offline_client
    (snd (exec (unreachable_node connection_refused) sample_verbosityCode
               sample_CONSERVATIVE (GetBlockHash 7)
               verbose_offline_client))
  = [(LevelError,
      ["Error getting block hash: Error: connect ECONNREFUSED"])].
Proof.
  refine (proj1 (failure_logging
                   (unreachable_node connection_refused) sample_verbosityCode
                   sample_CONSERVATIVE (GetBlockHash 7)
                   verbose_offline_client sample_client connection_refused
                   eq_refl _ _)).
  - intros h p a. reflexivity.
  - vm_compute. discriminate.
Defined.

(** C8, as worded, fails: a [blockHash] that is supplied but empty is not
    put on the wire. *)
Lemma empty_blockhash_counterexample :
  wire (snd (getRawTransaction (answering_node VNull) empty_hash_request
                               offline_client))
  <> (wire offline_client
      ++ [{| via := sample_client; procedure := "getrawtransaction";
             arguments :=
               [VObj (claimed_getRawTransaction_params empty_hash_request)]
          |}])%list.
Proof.
  vm_compute. discriminate.
Qed.

Lemma getRawTransaction_wire_params_witness :
  wire (snd (getRawTransaction (answering_node VNull) empty_hash_request
                               offline_client))
  = (wire offline_client
     ++ [{| via := sample_client; procedure := "getrawtransaction";
            arguments :=
              [VObj [("txid", VStr "9b0f"); ("verbose", VBool true)]] |}])%list.
Proof.
  exact (getRawTransaction_wire_params (answering_node VNull)
           empty_hash_request offline_client sample_client eq_refl).
Defined.

Lemma empty_answer_indistinguishable_from_failure_witness :
  fst (exec (answering_node (VStr "")) sample_verbosityCode
            sample_CONSERVATIVE (GetBlockAsHexString "5f2a")
            offline_client)
  = Returned VNull
  /\ fst (exec (unreachable_node connection_refused) sample_verbosityCode
               sample_CONSERVATIVE (GetBlockAsHexString "5f2a")
               offline_client)
     = Returned VNull.
Proof.
  destruct (empty_answer_indistinguishable_from_failure
              sample_verbosityCode sample_CONSERVATIVE
              (answering_node (VStr "")) (unreachable_node connection_refused)
              (GetBlockAsHexString "5f2a") offline_client sample_client
              connection_refused eq_refl eq_refl)
    as (Hempty & Hfailed & _).
  - intros h p a. reflexivity.
  - intros h p a. reflexivity.
  - split; [exact Hempty | exact Hfailed].
Defined.

(** C10, as worded, fails: with the default [enableDebug = false] the
    failure of the connectivity check is caught but not logged. *)
Lemma unlogged_connectivity_failure_counterexample :
  ~ connectivity_failure_logged_and_resolved fresh_client
      (init (unreachable_node connection_refused) sample_config fresh_client).
Proof.
  intros (_ & _ & Hlogged). apply Hlogged. reflexivity.
Qed.

Lemma init_connectivity_check_witness :
  fst (init (unreachable_node connection_refused) sample_config
            (new_BitcoinRPC None (Some true) 0))
  = Returned tt
  /\ errors_logged (new_BitcoinRPC None (Some true) 0) verbose_offline_client
     = [(LevelError,
         ["RPC errored. Please check your configuration. "
          ++ "connect ECONNREFUSED"])].
Proof.
  destruct (init_connectivity_check
              (unreachable_node connection_refused) sample_config
              (new_BitcoinRPC None (Some true) 0) eq_refl)
    as [_ Hcheck].
  exact (Hcheck eq_refl).
Defined.

(** * Further properties of the client *)

Section Further.

Variable node : Transport.
Variable verbosityCode : BitcoinVerbosity -> Value.
Variable FeeEstimation_CONSERVATIVE : Value.

Local Abbreviation perform :=
  (exec node verbosityCode FeeEstimation_CONSERVATIVE).

(** ** What a method call can and cannot change *)

(** X1.  No RPC method installs or drops the transport handle, touches the
    purge timer, changes the configuration or moves the clock; apart from
    [getChainInfo] and [getBlockHeight], a method leaves every field of the
    client as it found it, whatever the transport does. *)
Theorem methods_preserve_the_client :
  forall (r : Request) (w : World),
    rpc (self (snd (perform r w))) = rpc (self w)
    /\ purgeInterval (self (snd (perform r w))) = purgeInterval (self w)
    /\ cacheClearInterval (self (snd (perform r w)))
       = cacheClearInterval (self w)
    /\ enableDebug (self (snd (perform r w))) = enableDebug (self w)
    /\ now (snd (perform r w)) = now w
    /\ match r with
       | GetChainInfo | GetBlockHeight => True
       | _ => self (snd (perform r w)) = self w
       end.
Proof.
  intros r [[handle info current timer period debug] out sent clock].
  destruct r; destruct debug, handle; split_cases node; repeat split.
Qed.

(** X2.  On an initialized client a method hands exactly one request to the
    transport, through the installed handle and for its own remote
    procedure, whether that request succeeds or fails; the one exception is
    [getBlockHeight] with a cached block info, which hands over none. *)
Theorem one_request_per_call :
  forall (r : Request) (w : World) (c : RPCClient),
    rpc (self w) = Some c ->
    (exists a : list Value,
        wire (snd (perform r w))
        = (wire w ++ [{| via := c; procedure := remote_procedure r;
                         arguments := a |}])%list)
    \/ (r = GetBlockHeight
        /\ currentBlockInfo (self w) <> None
        /\ wire (snd (perform r w)) = wire w).
Proof.
  intros r [[handle info current timer period debug] out sent clock] c Hrpc.
  simpl in Hrpc. subst handle.
  destruct r; destruct debug; split_cases node;
    first [ left; eexists; reflexivity
          | right; split; [reflexivity | split; [discriminate | reflexivity]] ].
Qed.

(** X3.  No RPC method ends the process: a call returns or throws. *)
Theorem methods_never_exit :
  forall (r : Request) (w : World) (code : Z),
    fst (perform r w) <> Exited code.
Proof.
  intros r [[handle info current timer period debug] out sent clock] code.
  destruct r; destruct debug, handle; split_cases node; discriminate.
Qed.

(** X4.  A client constructed without [enableDebug] writes nothing to the
    console: not in a method, answered or failed, not in [init], not in
    [destroy]. *)
Theorem silent_without_debug :
  forall (r : Request) (rpcInfo : RPCConfig) (w : World),
    enableDebug (self w) = false ->
    console (snd (perform r w)) = console w
    /\ console (snd (init node rpcInfo w)) = console w
    /\ console (snd (destroy w)) = console w.
Proof.
  intros r rpcInfo [[handle info current timer period debug] out sent clock]
    Hdebug.
  simpl in Hdebug. subst debug.
  split; [| split].
  - destruct r; destruct handle; split_cases node; reflexivity.
  - destruct handle; split_cases node; reflexivity.
  - destruct timer; reflexivity.
Qed.

(** ** The answered call *)

Lemma js_or_of_truthy :
  forall v x : Value, truthy v = true -> v ||| x = v.
Proof.
  intros v x H. unfold js_or. rewrite H. reflexivity.
Qed.

Lemma js_coalesce_of_truthy :
  forall v x : Value, truthy v = true -> v ??? x = v.
Proof.
  intros v x H. destruct v; try discriminate H; reflexivity.
Qed.

Lemma answer_table :
  forall (r : Request) (w : World) (c : RPCClient) (v : Value),
    rpc (self w) = Some c ->
    (forall h p a, node (length (wire w)) h p a = Resolve v) ->
    match normalised (result_shape r) v with
    | Some x => fst (perform r w) = Returned x
    | None => r = GetBlockHeight
    end.
Proof.
  intros r [[handle info current timer period debug] out sent clock] c v
    Hrpc Hnode.
  simpl in Hrpc, Hnode. subst handle.
  destruct r; destruct debug; evaluate; rewrite ?Hnode; evaluate;
    first [reflexivity | split_cases node; reflexivity].
Qed.

(** X5.  When the transport answers, the value a method other than
    [getBlockHeight] returns is one of five normalisations of the answer,
    fixed per method: the answer itself
    (22 methods, which thus return undefined for an undefined answer), null
    in place of a falsy answer, null in place of undefined and null only
    ([getBlockCount], [getDifficulty], [pruneBlockChain], [verifyChain]),
    undefined whatever the answer (the 7 methods without a result), or null
    in place of an answer loosely equal to [''] ([getBlockAsHexString]). *)
Theorem answer_normalisation :
  forall (r : Request) (w : World) (c : RPCClient) (v : Value),
    rpc (self w) = Some c ->
    (forall h p a, node (length (wire w)) h p a = Resolve v) ->
    match normalised (result_shape r) v with
    | Some x => fst (perform r w) = Returned x
    | None => r = GetBlockHeight
    end.
Proof.
  intros r w c v Hrpc Hnode.
  pose proof (answer_table r w c v Hrpc Hnode) as H.
  destruct (result_shape r); simpl in *; exact H.
Qed.

(** X6.  A truthy answer of the transport reaches the caller unchanged,
    for every method that has a result of its own (for
    [getBlockAsHexString], unless the answer loosely equals ['']). *)
Theorem truthy_answer_is_returned :
  forall (r : Request) (w : World) (c : RPCClient) (v : Value),
    rpc (self w) = Some c ->
    (forall h p a, node (length (wire w)) h p a = Resolve v) ->
    truthy v = true ->
    result_shape r <> NoResult ->
    result_shape r <> BlockInfo ->
    (result_shape r = HexString -> loose_eq_empty v = false) ->
    fst (perform r w) = Returned v.
Proof.
  intros r w c v Hrpc Hnode Hv Hvoid Hinfo Hhex.
  pose proof (answer_table r w c v Hrpc Hnode) as H.
  destruct (result_shape r); simpl in H.
  - exact H.
  - rewrite js_or_of_truthy in H by exact Hv. exact H.
  - rewrite js_coalesce_of_truthy in H by exact Hv. exact H.
  - contradiction Hvoid. reflexivity.
  - rewrite (Hhex eq_refl) in H. exact H.
  - contradiction Hinfo. reflexivity.
Qed.

(** X7.  [getBlockCount], [getDifficulty] and [pruneBlockChain] answer a
    failed call with [0], [verifyChain] with [false], [getBlockHashes],
    [listWallets], [generateToAddress] and [verifyTxOutProof] with an empty
    array, and they return the same value, with the client in the same
    state, when the node itself gives that answer. *)
Theorem fallback_indistinguishable_from_answer :
  forall (answering failing : Transport) (r : Request) (w : World)
         (c : RPCClient) (a e : Value),
    fallback_answer r = Some a ->
    rpc (self w) = Some c ->
    (forall h p args, answering (length (wire w)) h p args = Resolve a) ->
    (forall h p args, failing (length (wire w)) h p args = Reject e) ->
    fst (exec answering verbosityCode FeeEstimation_CONSERVATIVE r w)
    = Returned a
    /\ fst (exec failing verbosityCode FeeEstimation_CONSERVATIVE r w)
       = Returned a
    /\ self (snd (exec answering verbosityCode FeeEstimation_CONSERVATIVE r w))
       = self (snd (exec failing verbosityCode FeeEstimation_CONSERVATIVE r w)).
Proof.
  intros answering failing r
    [[handle info current timer period debug] out sent clock] c a e
    Hr Hrpc Hok Hko.
  simpl in Hrpc, Hok, Hko. subst handle.
  destruct r; try discriminate Hr; simpl in Hr; inversion Hr; subst a;
    destruct debug; evaluate; rewrite ?Hok, ?Hko; evaluate; repeat split.
Qed.

(** ** The cache *)

Lemma member_of_truthy :
  forall (v : Value) (name : string),
    truthy v = true -> member v name = inl (property v name).
Proof.
  intros v name H. destruct v; try discriminate H; reflexivity.
Qed.

Lemma getChainInfo_self :
  forall w : World,
    self (snd (getChainInfo node w))
    = match rpc (self w) with
      | None => self w
      | Some c =>
          match node (length (wire w)) c "getblockchaininfo" [] with
          | Resolve v => after_chain_info v (self w)
          | Reject _ => self w
          end
      end.
Proof.
  intros [[handle info current timer period debug] out sent clock].
  destruct debug, handle; split_cases node; reflexivity.
Qed.

Lemma getBlockHeight_self :
  forall w : World,
    self (snd (getBlockHeight node w))
    = match currentBlockInfo (self w) with
      | Some _ => self w
      | None => self (snd (getChainInfo node w))
      end.
Proof.
  intros [[handle info current timer period debug] out sent clock].
  destruct debug, handle, current; split_cases node; reflexivity.
Qed.

Lemma init_self :
  forall (rpcInfo : RPCConfig) (w : World),
    self (snd (init node rpcInfo w))
    = match rpc (self w) with
      | Some _ => self w
      | None =>
          let c := {| options := getRpcConfigFromBlockchainConfig rpcInfo |} in
          match node (length (wire w)) c "getblockchaininfo" [] with
          | Resolve v => after_chain_info v (with_rpc (Some c) (self w))
          | Reject _ => with_rpc (Some c) (self w)
          end
      end.
Proof.
  intros rpcInfo [[handle info current timer period debug] out sent clock].
  destruct debug, handle; split_cases node; reflexivity.
Qed.

Lemma after_chain_info_consistent :
  forall (v : Value) (o : BitcoinRPC) (out : list (Level * list string))
         (sent : list WireCall) (clock : Z),
    cache_consistent
      {| self := o; console := out; wire := sent; now := clock |} ->
    cache_consistent
      {| self := after_chain_info v o; console := out; wire := sent;
         now := clock |}.
Proof.
  intros v [handle info current timer period debug] out sent clock H.
  unfold cache_consistent, after_chain_info in *. simpl in *.
  destruct (truthy v) eqn:Hv; simpl; intros Ht.
  - reflexivity.
  - rewrite Hv in Ht. discriminate Ht.
Qed.

Lemma cache_consistent_self :
  forall w w' : World,
    self w' = self w -> cache_consistent w -> cache_consistent w'.
Proof.
  intros w w' H. unfold cache_consistent. rewrite H. auto.
Qed.

Lemma cache_consistent_only_self :
  forall (w : World) (o : BitcoinRPC),
    self w = o ->
    cache_consistent {| self := o; console := []; wire := []; now := 0 |} ->
    cache_consistent w.
Proof.
  intros w o H. unfold cache_consistent. simpl. rewrite H. auto.
Qed.

Lemma exec_self :
  forall (r : Request) (w : World),
    self (snd (perform r w))
    = match r with
      | GetChainInfo => self (snd (getChainInfo node w))
      | GetBlockHeight => self (snd (getBlockHeight node w))
      | _ => self w
      end.
Proof.
  intros r [[handle info current timer period debug] out sent clock].
  destruct r; try reflexivity; destruct debug, handle; split_cases node;
    reflexivity.
Qed.

Lemma consistent_after_chain_info :
  forall (v : Value) (o : BitcoinRPC),
    (truthy (blockchainInfo o) = true ->
     currentBlockInfo o = Some (derived_block_info (blockchainInfo o))) ->
    truthy (blockchainInfo (after_chain_info v o)) = true ->
    currentBlockInfo (after_chain_info v o)
    = Some (derived_block_info (blockchainInfo (after_chain_info v o))).
Proof.
  intros v [handle info current timer period debug] H.
  unfold after_chain_info. destruct (truthy v) eqn:Hv; simpl; intros Ht.
  - reflexivity.
  - rewrite Hv in Ht. discriminate Ht.
Qed.

Lemma getChainInfo_consistent :
  forall w : World,
    cache_consistent w -> cache_consistent (snd (getChainInfo node w)).
Proof.
  intros w H. unfold cache_consistent in *. rewrite getChainInfo_self.
  destruct (rpc (self w)) as [c |]; [| exact H].
  destruct (node (length (wire w)) c "getblockchaininfo" []) as [v | e];
    [| exact H].
  apply consistent_after_chain_info. exact H.
Qed.

(** X8.  [getChainInfo] replaces the cached block info only when it is
    answered with a truthy snapshot: a failed call throws the failure and
    leaves the client as it was, and an answer of null (or another falsy
    value) is returned and stored as the snapshot while the block info
    cached before stays in place. *)
Theorem getChainInfo_without_snapshot :
  forall (w : World) (c : RPCClient),
    rpc (self w) = Some c ->
    match node (length (wire w)) c "getblockchaininfo" [] with
    | Reject e =>
        fst (getChainInfo node w) = Thrown e
        /\ self (snd (getChainInfo node w)) = self w
    | Resolve v =>
        truthy v = false ->
        fst (getChainInfo node w) = Returned v
        /\ blockchainInfo (self (snd (getChainInfo node w))) = v
        /\ currentBlockInfo (self (snd (getChainInfo node w)))
           = currentBlockInfo (self w)
    end.
Proof.
  intros [[handle info current timer period debug] out sent clock] c Hrpc.
  simpl in Hrpc. subst handle.
  destruct debug; split_cases node; repeat split; try discriminate.
Qed.

(** X9.  After a [getChainInfo] answered with a truthy snapshot,
    [getBlockHeight] returns the pair of the snapshot's [blocks] and
    [bestblockhash] without a request to the transport and without
    changing the client. *)
Theorem getBlockHeight_after_getChainInfo :
  forall (later : Transport) (w : World) (c : RPCClient) (v : Value),
    rpc (self w) = Some c ->
    node (length (wire w)) c "getblockchaininfo" [] = Resolve v ->
    truthy v = true ->
    fst (getBlockHeight later (snd (getChainInfo node w)))
    = Returned (VObj [("blockHeight", property v "blocks");
                      ("blockHash", property v "bestblockhash")])
    /\ wire (snd (getBlockHeight later (snd (getChainInfo node w))))
       = wire (snd (getChainInfo node w))
    /\ self (snd (getBlockHeight later (snd (getChainInfo node w))))
       = self (snd (getChainInfo node w)).
Proof.
  intros later [[handle info current timer period debug] out sent clock] c v
    Hrpc Hnode Hv.
  simpl in Hrpc, Hnode. subst handle.
  destruct v; try discriminate Hv; destruct debug; evaluate;
    rewrite Hnode; simpl in Hv; evaluate_in Hv;
    split_cases node; try discriminate Hv; repeat split.
Qed.

(** X10.  A [getChainInfo] answered with null while a block info is cached
    leaves that block info behind: the cached snapshot is null, yet
    [getBlockHeight] keeps returning the older block info and asks the
    transport nothing. *)
Theorem stale_block_info_is_served :
  forall (later : Transport) (w : World) (c : RPCClient)
         (cached : BasicBlockInfo) (v : Value),
    rpc (self w) = Some c ->
    currentBlockInfo (self w) = Some cached ->
    node (length (wire w)) c "getblockchaininfo" [] = Resolve v ->
    truthy v = false ->
    blockchainInfo (self (snd (getChainInfo node w))) = v
    /\ fst (getBlockHeight later (snd (getChainInfo node w)))
       = Returned (BasicBlockInfo_value (Some cached))
    /\ wire (snd (getBlockHeight later (snd (getChainInfo node w))))
       = wire (snd (getChainInfo node w)).
Proof.
  intros later [[handle info current timer period debug] out sent clock] c
    cached v Hrpc Hcached Hnode Hv.
  simpl in Hrpc, Hcached, Hnode. subst handle current.
  destruct v; destruct debug; evaluate;
    rewrite Hnode; simpl in Hv; evaluate_in Hv; try discriminate Hv;
    split_cases node; try discriminate Hv; repeat split.
Qed.

Lemma elapse_cache :
  forall (dt : Z) (w : World),
    (blockchainInfo (self (elapse dt w)) = blockchainInfo (self w)
     /\ currentBlockInfo (self (elapse dt w)) = currentBlockInfo (self w))
    \/ cache_empty (elapse dt w).
Proof.
  intros dt w. unfold cache_empty, elapse. simpl.
  destruct (purgeInterval (self w)) as [t |]; [| left; split; reflexivity].
  destruct (Z.to_nat (firings t (now w + Z.max 0 dt))) as [| n].
  - left. split; reflexivity.
  - right. split; reflexivity.
Qed.

(** X11.  Whenever a truthy snapshot is cached, the cached block info is
    the pair derived from that snapshot: this holds for a new client and is
    kept by every method, by [init], by [destroy] and by the purge timer. *)
Theorem cache_stays_consistent :
  forall (r : Request) (rpcInfo : RPCConfig) (dt : Z) (w : World),
    cache_consistent w ->
    cache_consistent (snd (perform r w))
    /\ cache_consistent (snd (init node rpcInfo w))
    /\ cache_consistent (snd (destroy w))
    /\ cache_consistent (elapse dt w)
    /\ (forall interval debug clock,
           cache_consistent (new_BitcoinRPC interval debug clock)).
Proof.
  intros r rpcInfo dt w H.
  split; [| split; [| split; [| split]]].
  - assert (Hheight : cache_consistent (snd (getBlockHeight node w))).
    { unfold cache_consistent. rewrite getBlockHeight_self.
      destruct (currentBlockInfo (self w)); [exact H |].
      apply getChainInfo_consistent. exact H. }
    unfold cache_consistent. rewrite exec_self.
    destruct r; first [exact H | exact Hheight
                      | apply getChainInfo_consistent; exact H].
  - unfold cache_consistent in *. rewrite init_self.
    destruct (rpc (self w)) as [c |]; [exact H |]. cbv zeta.
    destruct (node (length (wire w)) _ "getblockchaininfo" []) as [v | e].
    + apply consistent_after_chain_info. exact H.
    + exact H.
  - destruct w as [[handle info current [t |] period debug] out sent clock];
      intros Ht; discriminate Ht.
  - unfold cache_consistent in *.
    destruct (elapse_cache dt w) as [[H1 H2] | [H1 H2]].
    + rewrite H1, H2. exact H.
    + rewrite H1. intros Ht. discriminate Ht.
  - intros interval debug clock Ht. discriminate Ht.
Qed.

(** ** The life cycle *)

(** X12.  [destroy] always completes: it drops the transport handle,
    empties the cache and clears the purge timer, makes no request, logs
    nothing and keeps the configuration; a second [destroy] changes nothing
    further. *)
Theorem destroy_effects :
  forall w : World,
    fst (destroy w) = Returned tt
    /\ rpc (self (snd (destroy w))) = None
    /\ cache_empty (snd (destroy w))
    /\ timer_stopped (snd (destroy w))
    /\ wire (snd (destroy w)) = wire w
    /\ console (snd (destroy w)) = console w
    /\ cacheClearInterval (self (snd (destroy w))) = cacheClearInterval (self w)
    /\ enableDebug (self (snd (destroy w))) = enableDebug (self w)
    /\ snd (destroy (snd (destroy w))) = snd (destroy w).
Proof.
  intros [[handle info current [[d n k] |] period debug] out sent clock];
    unfold cache_empty, timer_stopped; repeat split.
Qed.

Lemma elapse_when_stopped :
  forall (dt : Z) (w : World),
    timer_stopped w ->
    timer_stopped (elapse dt w)
    /\ blockchainInfo (self (elapse dt w)) = blockchainInfo (self w)
    /\ currentBlockInfo (self (elapse dt w)) = currentBlockInfo (self w).
Proof.
  intros dt w H. unfold timer_stopped in *. unfold elapse. simpl.
  destruct (purgeInterval (self w)) as [t |] eqn:Ht; simpl.
  - unfold firings. rewrite H. simpl. repeat split; exact H.
  - rewrite Ht. repeat split.
Qed.

Lemma timer_stopped_transfer :
  forall w w' : World,
    purgeInterval (self w') = purgeInterval (self w) ->
    timer_stopped w -> timer_stopped w'.
Proof.
  intros w w' H. unfold timer_stopped. rewrite H. auto.
Qed.

Lemma play_keeps_stopped :
  forall (history : list Event) (w : World),
    timer_stopped w ->
    timer_stopped
      (play node verbosityCode FeeEstimation_CONSERVATIVE history w).
Proof.
  induction history as [| ev rest IH]; intros w Hw; simpl; [exact Hw |].
  assert (Hstep : timer_stopped
                    (snd (step node verbosityCode FeeEstimation_CONSERVATIVE
                               ev w))).
  { destruct ev as [r | rpcInfo | dt]; simpl.
    - destruct (exec_keeps_timer node verbosityCode
                  FeeEstimation_CONSERVATIVE r w) as [Ht _].
      destruct (perform r w) as [[a | e | code] w']; simpl in *;
        eapply timer_stopped_transfer; eassumption.
    - destruct (init_keeps_timer node rpcInfo w) as [Ht _].
      destruct (init node rpcInfo w) as [[a | e | code] w']; simpl in *;
        eapply timer_stopped_transfer; eassumption.
    - apply elapse_when_stopped. exact Hw. }
  destruct (step node verbosityCode FeeEstimation_CONSERVATIVE ev w)
    as [[|] w']; simpl in *; [apply IH; exact Hstep | exact Hstep].
Qed.

(** X13.  Once [destroy] was called the purge timer stays stopped: through
    any later method calls, [init] calls and waiting, the passage of time
    no longer resets the cached snapshot or the cached block info. *)
Theorem no_purge_after_destroy :
  forall (history : list Event) (w0 : World) (dt : Z),
    let w :=
      play node verbosityCode FeeEstimation_CONSERVATIVE history
           (snd (destroy w0)) in
    timer_stopped w
    /\ blockchainInfo (self (elapse dt w)) = blockchainInfo (self w)
    /\ currentBlockInfo (self (elapse dt w)) = currentBlockInfo (self w).
Proof.
  intros history w0 dt w.
  assert (H0 : timer_stopped (snd (destroy w0))).
  { destruct w0 as [[handle info current [[d n k] |] period debug]
                      out sent clock]; reflexivity. }
  pose proof (play_keeps_stopped history _ H0) as H. fold w in H.
  split; [exact H |].
  exact (proj2 (elapse_when_stopped dt w H)).
Qed.

Lemma init_rpc :
  forall (rpcInfo : RPCConfig) (w : World),
    rpc (self (snd (init node rpcInfo w)))
    = match rpc (self w) with
      | Some c => Some c
      | None => Some {| options := getRpcConfigFromBlockchainConfig rpcInfo |}
      end.
Proof.
  intros rpcInfo w. rewrite init_self.
  destruct w as [[[c |] info current timer period debug] out sent clock];
    simpl; [reflexivity |].
  destruct (node (length sent) _ "getblockchaininfo" []) as [v | e];
    [| reflexivity].
  unfold after_chain_info. destruct (truthy v); reflexivity.
Qed.

Lemma init_refused :
  forall (other : Transport) (rpcInfo : RPCConfig) (w : World) (c : RPCClient),
    rpc (self w) = Some c ->
    init other rpcInfo w = (Thrown (VError "RPC already initialized"), w).
Proof.
  intros other rpcInfo
    [[handle info current timer period debug] out sent clock] c H.
  simpl in H. subst handle. reflexivity.
Qed.

(** X14.  After any call of [init], whatever came of its connectivity
    check, a further [init] throws [Error('RPC already initialized')] and
    changes nothing; after [destroy], [init] installs a handle again. *)
Theorem init_again_needs_destroy :
  forall (other : Transport) (first second : RPCConfig) (w : World),
    init other second (snd (init node first w))
    = (Thrown (VError "RPC already initialized"), snd (init node first w))
    /\ rpc (self (snd (init node first (snd (destroy w)))))
       = Some {| options := getRpcConfigFromBlockchainConfig first |}.
Proof.
  intros other first second w. split.
  - pose proof (init_rpc first w) as H.
    destruct (rpc (self w)) as [c |];
      eapply init_refused; exact H.
  - rewrite init_rpc.
    destruct w as [[handle info current [t |] period debug] out sent clock];
      reflexivity.
Qed.

(** X15.  An [init] whose connectivity check is answered with a truthy
    snapshot completes normally after exactly one request,
    [getblockchaininfo], through the new handle, and leaves the snapshot
    and its block info cached, so that a [getBlockHeight] right after it
    asks the transport nothing. *)
Theorem init_fills_the_cache :
  forall (later : Transport) (rpcInfo : RPCConfig) (w : World) (v : Value),
    let c := {| options := getRpcConfigFromBlockchainConfig rpcInfo |} in
    rpc (self w) = None ->
    node (length (wire w)) c "getblockchaininfo" [] = Resolve v ->
    truthy v = true ->
    fst (init node rpcInfo w) = Returned tt
    /\ wire (snd (init node rpcInfo w))
       = (wire w ++ [{| via := c; procedure := "getblockchaininfo";
                        arguments := [] |}])%list
    /\ blockchainInfo (self (snd (init node rpcInfo w))) = v
    /\ currentBlockInfo (self (snd (init node rpcInfo w)))
       = Some (derived_block_info v)
    /\ fst (getBlockHeight later (snd (init node rpcInfo w)))
       = Returned (BasicBlockInfo_value (Some (derived_block_info v)))
    /\ wire (snd (getBlockHeight later (snd (init node rpcInfo w))))
       = wire (snd (init node rpcInfo w)).
Proof.
  intros later [host portno username password]
    [[handle info current timer period debug] out sent clock] v c
    Hrpc Hnode Hv.
  subst c. simpl in Hrpc, Hnode. subst handle.
  destruct v; try discriminate Hv; destruct debug; evaluate;
    evaluate_in Hnode; rewrite Hnode; simpl in Hv; evaluate_in Hv;
    split_cases node; try discriminate Hv; repeat split.
Qed.

(** X16.  If the connectivity check of [init] fails with a reason that is
    undefined or null, reading the reason's [message] fails in turn: [init]
    throws instead of completing, logs no error, and leaves the handle
    installed. *)
Theorem init_throws_on_nullish_reason :
  forall (rpcInfo : RPCConfig) (w : World) (e : Value),
    let c := {| options := getRpcConfigFromBlockchainConfig rpcInfo |} in
    rpc (self w) = None ->
    node (length (wire w)) c "getblockchaininfo" [] = Reject e ->
    nullish e = true ->
    (exists type_error : Value,
        fst (init node rpcInfo w) = Thrown type_error /\ type_error <> e)
    /\ rpc (self (snd (init node rpcInfo w))) = Some c
    /\ errors_logged w (snd (init node rpcInfo w)) = [].
Proof.
  intros [host portno username password]
    [[handle info current timer period debug] out sent clock] e c
    Hrpc Hnode He.
  subst c. simpl in Hrpc, Hnode. subst handle.
  destruct e; try discriminate He; destruct debug; evaluate;
    evaluate_in Hnode; rewrite Hnode; evaluate; tidy_console;
    (split; [eexists; split; [reflexivity | discriminate]
            | split; reflexivity]).
Qed.


(** ** The schedule of the purge timer *)

Lemma iter_purge_interval :
  forall (n : nat) (o : BitcoinRPC),
    cacheClearInterval (Nat.iter n purge_callback o) = cacheClearInterval o.
Proof.
  induction n as [| n IH]; intros o; simpl; [reflexivity | apply IH].
Qed.

Lemma after_chain_info_interval :
  forall (v : Value) (o : BitcoinRPC),
    cacheClearInterval (after_chain_info v o) = cacheClearInterval o.
Proof.
  intros v o. unfold after_chain_info. destruct (truthy v); reflexivity.
Qed.

Lemma getChainInfo_keeps_interval :
  forall w : World,
    cacheClearInterval (self (snd (getChainInfo node w)))
    = cacheClearInterval (self w).
Proof.
  intros w. rewrite getChainInfo_self.
  destruct (rpc (self w)) as [c |]; [| reflexivity].
  destruct (node (length (wire w)) c "getblockchaininfo" []) as [v | e];
    [apply after_chain_info_interval | reflexivity].
Qed.

Lemma exec_keeps_interval :
  forall (r : Request) (w : World),
    cacheClearInterval (self (snd (perform r w)))
    = cacheClearInterval (self w).
Proof.
  intros r w. rewrite exec_self.
  destruct r; try reflexivity.
  - apply getChainInfo_keeps_interval.
  - rewrite getBlockHeight_self.
    destruct (currentBlockInfo (self w));
      [reflexivity | apply getChainInfo_keeps_interval].
Qed.

Lemma init_keeps_interval :
  forall (rpcInfo : RPCConfig) (w : World),
    cacheClearInterval (self (snd (init node rpcInfo w)))
    = cacheClearInterval (self w).
Proof.
  intros rpcInfo w. rewrite init_self.
  destruct (rpc (self w)) as [c |]; [reflexivity |]. cbv zeta.
  destruct (node (length (wire w)) _ "getblockchaininfo" []) as [v | e];
    [rewrite after_chain_info_interval |]; reflexivity.
Qed.

Lemma timer_on_schedule_transfer :
  forall (start : Z) (w w' : World),
    purgeInterval (self w') = purgeInterval (self w) ->
    cacheClearInterval (self w') = cacheClearInterval (self w) ->
    now w' = now w ->
    timer_on_schedule start w -> timer_on_schedule start w'.
Proof.
  intros start w w' Ht Hi Hn (Hrun & Hper & Hnext & k & Hk & Hdue).
  unfold timer_on_schedule, timer_period, next_purge in *.
  rewrite Ht, Hi, Hn.
  split; [eapply timer_running_transfer; eassumption |].
  split; [exact Hper |]. split; [exact Hnext |].
  exists k. split; assumption.
Qed.

Lemma elapse_on_schedule :
  forall (start dt : Z) (w : World),
    timer_on_schedule start w -> timer_on_schedule start (elapse dt w).
Proof.
  intros start dt w (Hrun & Hper & Hnext & k & Hk & Hdue).
  destruct (elapse_keeps_timer dt w Hrun) as [Hrun' Hper'].
  destruct Hrun as (t & Ht & Hc & Hd & Hle).
  unfold timer_on_schedule. split; [exact Hrun' |].
  unfold timer_period, next_purge in *. unfold elapse in *. simpl in *.
  rewrite Ht in *. simpl in *.
  rewrite iter_purge_interval.
  split; [exact Hper |].
  unfold firings. rewrite Hc. simpl.
  destruct (now w + Z.max 0 dt <? due t) eqn:Hlt.
  - apply Z.ltb_lt in Hlt. split; [lia |].
    exists k. split; [exact Hk | lia].
  - apply Z.ltb_ge in Hlt.
    pose proof (Z.div_mod (now w + Z.max 0 dt - due t) (delay t)) as Hdm.
    pose proof (Z.mod_pos_bound (now w + Z.max 0 dt - due t) (delay t)) as Hm.
    assert (Hq : 0 <= (now w + Z.max 0 dt - due t) / delay t)
      by (apply Z.div_pos; lia).
    split; [nia |].
    exists (k + ((now w + Z.max 0 dt - due t) / delay t + 1)).
    split; [lia | nia].
Qed.

Lemma play_on_schedule :
  forall (start : Z) (history : list Event) (w : World),
    timer_on_schedule start w ->
    timer_on_schedule start
      (play node verbosityCode FeeEstimation_CONSERVATIVE history w)
    /\ cacheClearInterval
         (self (play node verbosityCode FeeEstimation_CONSERVATIVE history w))
       = cacheClearInterval (self w).
Proof.
  intros start. induction history as [| ev rest IH]; intros w Hw; simpl;
    [split; [exact Hw | reflexivity] |].
  assert (Hstep :
            timer_on_schedule start
              (snd (step node verbosityCode FeeEstimation_CONSERVATIVE ev w))
            /\ cacheClearInterval
                 (self (snd (step node verbosityCode
                                  FeeEstimation_CONSERVATIVE ev w)))
               = cacheClearInterval (self w)).
  { destruct ev as [r | rpcInfo | dt]; simpl.
    - destruct (exec_keeps_timer node verbosityCode
                  FeeEstimation_CONSERVATIVE r w) as [Ht Hn].
      pose proof (exec_keeps_interval r w) as Hi.
      destruct (perform r w) as [[a | e | code] w']; simpl in *;
        (split; [eapply timer_on_schedule_transfer; eassumption | exact Hi]).
    - destruct (init_keeps_timer node rpcInfo w) as [Ht Hn].
      pose proof (init_keeps_interval rpcInfo w) as Hi.
      destruct (init node rpcInfo w) as [[a | e | code] w']; simpl in *;
        (split; [eapply timer_on_schedule_transfer; eassumption | exact Hi]).
    - split; [apply elapse_on_schedule; exact Hw |].
      unfold elapse. simpl.
      destruct (purgeInterval (self w)); simpl;
        [apply iter_purge_interval | reflexivity]. }
  destruct Hstep as [Hs Hi].
  destruct (step node verbosityCode FeeEstimation_CONSERVATIVE ev w)
    as [[|] w']; simpl in *.
  - destruct (IH w' Hs) as [H1 H2]. split; [exact H1 | congruence].
  - split; assumption.
Qed.

Lemma new_BitcoinRPC_on_schedule :
  forall (interval : option Z) (debug : option bool) (clock : Z),
    timer_on_schedule clock (new_BitcoinRPC interval debug clock)
    /\ cacheClearInterval (self (new_BitcoinRPC interval debug clock))
       = default 1000 interval.
Proof.
  intros interval debug clock. split; [| reflexivity].
  destruct (new_BitcoinRPC_timer interval debug clock) as [Hrun Hper].
  destruct (setInterval_delay (default 1000 interval) clock) as [Hpos _].
  unfold timer_on_schedule. split; [exact Hrun |].
  split; [exact Hper |].
  unfold next_purge, timer_period, new_BitcoinRPC. simpl.
  unfold setInterval in *. simpl in *.
  split; [lia |].
  exists 1. split; lia.
Qed.

Lemma elapse_before_next_purge :
  forall (dt : Z) (w : World),
    0 <= dt < next_purge w - now w ->
    blockchainInfo (self (elapse dt w)) = blockchainInfo (self w)
    /\ currentBlockInfo (self (elapse dt w)) = currentBlockInfo (self w).
Proof.
  intros dt w Hdt. unfold next_purge in Hdt. unfold elapse. simpl.
  destruct (purgeInterval (self w)) as [t |]; [| split; reflexivity].
  assert (Hlt : (now w + Z.max 0 dt <? due t) = true)
    by (apply Z.ltb_lt; lia).
  unfold firings. rewrite Hlt, orb_true_r. simpl. split; reflexivity.
Qed.

Lemma elapse_from_next_purge :
  forall (dt : Z) (w : World),
    timer_running w ->
    next_purge w - now w <= dt ->
    cache_empty (elapse dt w).
Proof.
  intros dt w (t & Ht & Hc & Hd & Hle) Hdt.
  unfold next_purge in Hdt. rewrite Ht in Hdt.
  unfold cache_empty, elapse. simpl. rewrite Ht.
  assert (Hk : 1 <= firings t (now w + Z.max 0 dt)).
  { unfold firings. rewrite Hc. simpl.
    destruct (now w + Z.max 0 dt <? due t) eqn:Hlt.
    - apply Z.ltb_lt in Hlt. lia.
    - apply Z.ltb_ge in Hlt.
      assert (0 <= (now w + Z.max 0 dt - due t) / delay t)
        by (apply Z.div_pos; lia).
      lia. }
  destruct (Z.to_nat (firings t (now w + Z.max 0 dt))) as [| n] eqn:Hn;
    [lia |].
  destruct (iter_purge_callback n (self w)) as [H1 H2].
  split; simpl; assumption.
Qed.

(** X18.  From construction on and through any history of method calls,
    [init] calls and waiting that contains no [destroy], the purge timer of
    the client is in force with the period that [setInterval] gives the
    client's [cacheClearInterval] (that value itself when it lies between 1
    and 2147483647, otherwise 1 millisecond; the value is the constructor's
    argument, 1000 when omitted); it fires a whole number of periods after
    the construction; both cached values are untouched until it fires and
    null once it has fired. *)
Theorem purge_timer_schedule :
  forall (interval : option Z) (debug : option bool) (clock : Z)
         (history : list Event) (dt : Z),
    let w :=
      play node verbosityCode FeeEstimation_CONSERVATIVE history
           (new_BitcoinRPC interval debug clock) in
    timer_running w
    /\ cacheClearInterval (self w) = default 1000 interval
    /\ timer_period w
       = (if (1 <=? cacheClearInterval (self w))
             && (cacheClearInterval (self w) <=? TIMEOUT_MAX)
          then cacheClearInterval (self w)
          else 1)
    /\ now w < next_purge w <= now w + timer_period w
    /\ (exists k : Z, 1 <= k /\ next_purge w = clock + k * timer_period w)
    /\ (0 <= dt < next_purge w - now w ->
        blockchainInfo (self (elapse dt w)) = blockchainInfo (self w)
        /\ currentBlockInfo (self (elapse dt w)) = currentBlockInfo (self w))
    /\ (next_purge w - now w <= dt -> cache_empty (elapse dt w)).
Proof.
  intros interval debug clock history dt w.
  destruct (new_BitcoinRPC_on_schedule interval debug clock) as [H0 Hi0].
  destruct (play_on_schedule clock history _ H0) as [Hs Hi].
  fold w in Hs, Hi.
  destruct Hs as (Hrun & Hper & Hnext & Hk).
  split; [exact Hrun |].
  split; [rewrite Hi; exact Hi0 |].
  split; [rewrite Hper; reflexivity |].
  split.
  - split; [exact Hnext |].
    destruct Hrun as (t & Ht & _ & _ & Hle).
    unfold next_purge, timer_period. rewrite Ht. exact Hle.
  - split; [exact Hk |].
    split.
    + apply elapse_before_next_purge.
    + apply elapse_from_next_purge. exact Hrun.
Qed.

End Further.

(** ** Closed instances of the further properties *)

Lemma one_request_per_call_witness :
  (exists a : list Value,
      wire (snd (exec (unreachable_node connection_refused)
                      sample_verbosityCode sample_CONSERVATIVE
                      (GetBlockHash 7) offline_client))
      = (wire offline_client
         ++ [{| via := sample_client; procedure := "getblockhash";
                arguments := a |}])%list)
  \/ (GetBlockHash 7 = GetBlockHeight
      /\ currentBlockInfo (self offline_client) <> None
      /\ wire (snd (exec (unreachable_node connection_refused)
                         sample_verbosityCode sample_CONSERVATIVE
                         (GetBlockHash 7) offline_client))
         = wire offline_client).
Proof.
  exact (one_request_per_call (unreachable_node connection_refused)
           sample_verbosityCode sample_CONSERVATIVE (GetBlockHash 7)
           offline_client sample_client eq_refl).
Defined.

Lemma silent_without_debug_witness :
  console (snd (exec (unreachable_node connection_refused)
                     sample_verbosityCode sample_CONSERVATIVE
                     (GetBlockHash 7) offline_client))
  = []
  /\ console (snd (init (unreachable_node connection_refused) sample_config
                        offline_client))
     = []
  /\ console (snd (destroy offline_client)) = [].
Proof.
  exact (silent_without_debug (unreachable_node connection_refused)
           sample_verbosityCode sample_CONSERVATIVE (GetBlockHash 7)
           sample_config offline_client eq_refl).
Defined.

Lemma answer_normalisation_witness :
  fst (exec (answering_node VUndefined) sample_verbosityCode
            sample_CONSERVATIVE (GetBestBlockHeader None) offline_client)
  = Returned VUndefined.
Proof.
  exact (answer_normalisation (answering_node VUndefined)
           sample_verbosityCode sample_CONSERVATIVE (GetBestBlockHeader None)
           offline_client sample_client VUndefined eq_refl
           (fun _ _ _ => eq_refl)).
Defined.

Lemma truthy_answer_is_returned_witness :
  fst (exec (answering_node (VStr "5f2a")) sample_verbosityCode
            sample_CONSERVATIVE (GetBlockAsHexString "00ab") offline_client)
  = Returned (VStr "5f2a").
Proof.
  apply (truthy_answer_is_returned (answering_node (VStr "5f2a"))
           sample_verbosityCode sample_CONSERVATIVE
           (GetBlockAsHexString "00ab") offline_client sample_client).
  - reflexivity.
  - intros h p a. reflexivity.
  - reflexivity.
  - simpl. discriminate.
  - simpl. discriminate.
  - intros _. reflexivity.
Defined.

Lemma fallback_indistinguishable_from_answer_witness :
  fst (exec (answering_node (VBool false)) sample_verbosityCode
            sample_CONSERVATIVE (VerifyChain None None) offline_client)
  = Returned (VBool false)
  /\ fst (exec (unreachable_node connection_refused) sample_verbosityCode
               sample_CONSERVATIVE (VerifyChain None None) offline_client)
     = Returned (VBool false).
Proof.
  destruct (fallback_indistinguishable_from_answer
              sample_verbosityCode sample_CONSERVATIVE
              (answering_node (VBool false))
              (unreachable_node connection_refused)
              (VerifyChain None None) offline_client sample_client
              (VBool false) connection_refused eq_refl eq_refl)
    as (Hanswered & Hfailed & _).
  - intros h p args. reflexivity.
  - intros h p args. reflexivity.
  - split; [exact Hanswered | exact Hfailed].
Defined.

Lemma getChainInfo_without_snapshot_witness :
  fst (getChainInfo (answering_node VNull) online_client) = Returned VNull
  /\ blockchainInfo (self (snd (getChainInfo (answering_node VNull)
                                             online_client)))
     = VNull
  /\ currentBlockInfo (self (snd (getChainInfo (answering_node VNull)
                                               online_client)))
     = currentBlockInfo (self online_client).
Proof.
  exact (getChainInfo_without_snapshot (answering_node VNull) online_client
           sample_client eq_refl eq_refl).
Defined.

Lemma getBlockHeight_after_getChainInfo_witness :
  fst (getBlockHeight (unreachable_node connection_refused)
         (snd (getChainInfo (answering_node sample_chain_info)
                            offline_client)))
  = Returned (VObj [("blockHeight", VNum 101); ("blockHash", VStr "5f2a")]).
Proof.
  exact (proj1 (getBlockHeight_after_getChainInfo
                  (answering_node sample_chain_info)
                  (unreachable_node connection_refused) offline_client
                  sample_client sample_chain_info eq_refl eq_refl eq_refl)).
Defined.

Lemma stale_block_info_is_served_witness :
  blockchainInfo (self (snd (getChainInfo (answering_node VNull)
                                          online_client)))
  = VNull
  /\ fst (getBlockHeight (unreachable_node connection_refused)
            (snd (getChainInfo (answering_node VNull) online_client)))
     = Returned (VObj [("blockHeight", VNum 101); ("blockHash", VStr "5f2a")]).
Proof.
  destruct (stale_block_info_is_served (answering_node VNull)
              (unreachable_node connection_refused) online_client
              sample_client (derived_block_info sample_chain_info) VNull
              eq_refl eq_refl eq_refl eq_refl)
    as (Hinfo & Hreturned & _).
  split; [exact Hinfo | exact Hreturned].
Defined.

Lemma cache_stays_consistent_witness :
  cache_consistent
    (snd (exec (answering_node VNull) sample_verbosityCode
               sample_CONSERVATIVE GetChainInfo online_client))
  /\ cache_consistent (elapse 400 online_client).
Proof.
  assert (H : cache_consistent online_client) by (intros _; reflexivity).
  destruct (cache_stays_consistent (answering_node VNull)
              sample_verbosityCode sample_CONSERVATIVE GetChainInfo
              sample_config 400 online_client H)
    as (Hcall & _ & _ & Hwait & _).
  split; [exact Hcall | exact Hwait].
Defined.

Lemma init_fills_the_cache_witness :
  fst (init (answering_node sample_chain_info) sample_config fresh_client)
  = Returned tt
  /\ blockchainInfo (self online_client) = sample_chain_info
  /\ wire (snd (getBlockHeight (unreachable_node connection_refused)
                               online_client))
     = wire online_client.
Proof.
  destruct (init_fills_the_cache (answering_node sample_chain_info)
              (unreachable_node connection_refused) sample_config
              fresh_client sample_chain_info eq_refl eq_refl eq_refl)
    as (Hdone & _ & Hinfo & _ & _ & Hwire).
  split; [exact Hdone | split; [exact Hinfo | exact Hwire]].
Defined.

Lemma init_throws_on_nullish_reason_witness :
  (exists type_error : Value,
      fst (init (unreachable_node VUndefined) sample_config fresh_client)
      = Thrown type_error
      /\ type_error <> VUndefined)
  /\ rpc (self (snd (init (unreachable_node VUndefined) sample_config
                          fresh_client)))
     = Some sample_client.
Proof.
  destruct (init_throws_on_nullish_reason (unreachable_node VUndefined)
              sample_config fresh_client VUndefined eq_refl eq_refl eq_refl)
    as (Hthrown & Hrpc & _).
  split; [exact Hthrown | exact Hrpc].
Defined.

Lemma purge_timer_schedule_witness :
  let w :=
    play (answering_node sample_chain_info) sample_verbosityCode
         sample_CONSERVATIVE [Initialize sample_config; Wait 250]
         fresh_client in
  (blockchainInfo (self (elapse 749 w)) = sample_chain_info
   /\ currentBlockInfo (self (elapse 749 w))
      = Some (derived_block_info sample_chain_info))
  /\ cache_empty (elapse 750 w).
Proof.
  intros w. split.
  - destruct (purge_timer_schedule
                (answering_node sample_chain_info) sample_verbosityCode
                sample_CONSERVATIVE None None 0
                [Initialize sample_config; Wait 250] 749)
      as (_ & _ & _ & _ & _ & Hkept & _).
    apply Hkept. vm_compute. split; [discriminate | reflexivity].
  - destruct (purge_timer_schedule
                (answering_node sample_chain_info) sample_verbosityCode
                sample_CONSERVATIVE None None 0
                [Initialize sample_config; Wait 250] 750)
      as (_ & _ & _ & _ & _ & _ & Hpurged).
    apply Hpurged. vm_compute. discriminate.
Defined.

(** C4 (defect of the code).  The timer set by the constructor resets both
    cached values every [cacheClearInterval] milliseconds, but [destroy]
    clears it and [init] sets no other.  On a client that was destroyed and
    initialized again the timer is stopped, and whatever time passes, the
    snapshot and the block info cached by that [init] are still cached and
    [getBlockHeight] returns the block info without asking the transport:
    the cached snapshot outlives every timer period. *)
Theorem cache_never_purged_after_reinit :
  forall dt : Z,
    rpc (self reinitialized_client) = Some sample_client
    /\ cacheClearInterval (self reinitialized_client) = 1000
    /\ timer_stopped reinitialized_client
    /\ blockchainInfo (self (elapse dt reinitialized_client))
       = sample_chain_info
    /\ currentBlockInfo (self (elapse dt reinitialized_client))
       = Some {| blockHeight := VNum 101; blockHash := VStr "5f2a" |}
    /\ fst (getBlockHeight (unreachable_node connection_refused)
                           (elapse dt reinitialized_client))
       = Returned
           (VObj [("blockHeight", VNum 101); ("blockHash", VStr "5f2a")])
    /\ wire (snd (getBlockHeight (unreachable_node connection_refused)
                                 (elapse dt reinitialized_client)))
       = wire reinitialized_client.
Proof.
  intros dt. repeat split.
Qed.
